(** * useAutoSizer: column auto-sizing hook for a virtualised grid

    A shallow embedding of [src/hooks/useAutoSizer.ts].

    - Row and column indices, pixel sizes and delays are integers ([Z]);
      a measured text extent is a rational ([Q]) that [Math.ceil] rounds up.
    - The hook's mutable cells (the [useState] viewport, the [useRef] boxes
      [isMounted], [autoSizer], [debounceResizer], the host's [gridRef]) are
      the fields of one [World] record, threaded through a state monad.
    - A callback created by a render closes over that render's [viewport];
      the embedding passes it as an explicit argument. *)

From Stdlib Require Import ZArith QArith Qround List String Bool Lia.
From Equations Require Import Equations.
Import ListNotations.

Local Open Scope Z_scope.

(** ** Values handed around by the host grid *)

Record CellInterface := { rowIndex : Z; columnIndex : Z }.

Record ViewPortProps := {
  rowStartIndex : Z;
  rowStopIndex : Z;
  columnStartIndex : Z;
  columnStopIndex : Z
}.

(** What [getValue] may hand back: [undefined], [null], or a text. *)
Inductive JsValue :=
| JsUndefined
| JsNull
| JsText (s : string).

(** [v ?? null] *)
Definition nullish_or_null (v : JsValue) : JsValue :=
  match v with
  | JsUndefined | JsNull => JsNull
  | JsText _ => v
  end.

(** [v !== null] *)
Definition not_null (v : JsValue) : bool :=
  match v with
  | JsNull => false
  | _ => true
  end.

(** The string a value is measured as. *)
Definition to_text (v : JsValue) : string :=
  match v with
  | JsUndefined => "undefined"
  | JsNull => "null"
  | JsText s => s
  end.

(** [a || b] on numbers: [0] is the falsy one. *)
Definition js_or (a b : Z) : Z := if a =? 0 then b else a.

(** [a < b] where [b] may be [undefined] (the comparison is then false). *)
Definition js_lt (a : Z) (b : option Z) : bool :=
  match b with
  | Some b => a <? b
  | None => false
  end.

Inductive ResizeStrategy := lazy | full.

Definition ResizeStrategy_eqb (a b : ResizeStrategy) : bool :=
  match a, b with
  | lazy, lazy | full, full => true
  | _, _ => false
  end.

(** ** The measuring canvas *)

Record TextMetrics := { width : Q }.

(** The 2d context of the off-screen canvas: its current font, and the
    host's rasteriser (font, then text). *)
Record CanvasRenderingContext2D := {
  ctx_font : string;
  ctx_extent : string -> string -> Q
}.

Definition ctx_measureText (c : CanvasRenderingContext2D) (text : string)
  : TextMetrics :=
  {| width := ctx_extent c (ctx_font c) text |}.

Module AutoSizerCanvas.

(** [context] is what [canvas.getContext("2d")] gave: possibly nothing. *)
Record t := {
  defaultFont : string;
  context : option CanvasRenderingContext2D
}.

(** [setFont(font = defaultFont)]: [if (context) context.font = font]. *)
Definition setFont (font : option string) (a : t) : t :=
  let font := match font with Some f => f | None => defaultFont a end in
  match context a with
  | Some c =>
      {| defaultFont := defaultFont a;
         context := Some {| ctx_font := font; ctx_extent := ctx_extent c |} |}
  | None => a
  end.

(** [context?.measureText(text)] *)
Definition measureText (a : t) (text : string) : option TextMetrics :=
  match context a with
  | Some c => Some (ctx_measureText c text)
  | None => None
  end.

Definition make (getContext : option CanvasRenderingContext2D)
           (defaultFont : string) : t :=
  setFont (Some defaultFont)
          {| defaultFont := defaultFont; context := getContext |}.

End AutoSizerCanvas.

(** ** The host grid and the debounced resizer *)

(** The host grid, seen through the one method the hook calls: the
    arguments [resetAfterIndices] has received, oldest first. *)
Record GridRef := { resetAfterIndices_calls : list CellInterface }.

Definition resetAfterIndices (c : CellInterface) (g : GridRef) : GridRef :=
  {| resetAfterIndices_calls := resetAfterIndices_calls g ++ [c] |}.

(** Modelled from the spec: [debounce] of [src/helpers] is not part of the
    sources at hand.  Following the debounce contract, it is a single-slot
    timer: a call cancels what is pending and re-arms the timer [wait]
    milliseconds after the call, keeping the latest arguments; the callback
    runs once the clock reaches the deadline. *)
Module Debounce.

Record t := {
  wait : Z;
  pending : option (CellInterface * Z)
}.

Definition make (wait : Z) : t := {| wait := wait; pending := None |}.

Definition call (now : Z) (args : CellInterface) (d : t) : t :=
  {| wait := wait d; pending := Some (args, now + wait d) |}.

(** The arguments to run the callback with at time [now], if the timer
    is due. *)
Definition due (now : Z) (d : t) : option CellInterface :=
  match pending d with
  | Some (args, deadline) => if deadline <=? now then Some args else None
  | None => None
  end.

Definition clear (d : t) : t := {| wait := wait d; pending := None |}.

End Debounce.

(** ** Hook state *)

Inductive JsError :=
| InvariantError (message : string)
| TypeError (message : string).

Record World := {
  viewportState : ViewPortProps;          (* useState *)
  isMounted : bool;                       (* useRef(false) *)
  autoSizer : AutoSizerCanvas.t;          (* useRef(AutoSizerCanvas(font)) *)
  debounceResizer : Debounce.t;           (* useRef(debounce(..., timeout)) *)
  gridRef : option GridRef;               (* gridRef.current *)
  clock : Z;                              (* host time, milliseconds *)
  uncaught : list JsError                 (* errors thrown by timer tasks *)
}.

Definition set_viewportState (v : ViewPortProps) (w : World) : World :=
  {| viewportState := v; isMounted := isMounted w; autoSizer := autoSizer w;
     debounceResizer := debounceResizer w; gridRef := gridRef w;
     clock := clock w; uncaught := uncaught w |}.

Definition set_isMounted (b : bool) (w : World) : World :=
  {| viewportState := viewportState w; isMounted := b; autoSizer := autoSizer w;
     debounceResizer := debounceResizer w; gridRef := gridRef w;
     clock := clock w; uncaught := uncaught w |}.

Definition set_autoSizer (a : AutoSizerCanvas.t) (w : World) : World :=
  {| viewportState := viewportState w; isMounted := isMounted w; autoSizer := a;
     debounceResizer := debounceResizer w; gridRef := gridRef w;
     clock := clock w; uncaught := uncaught w |}.

Definition set_debounceResizer (d : Debounce.t) (w : World) : World :=
  {| viewportState := viewportState w; isMounted := isMounted w;
     autoSizer := autoSizer w; debounceResizer := d; gridRef := gridRef w;
     clock := clock w; uncaught := uncaught w |}.

Definition set_gridRef (g : option GridRef) (w : World) : World :=
  {| viewportState := viewportState w; isMounted := isMounted w;
     autoSizer := autoSizer w; debounceResizer := debounceResizer w;
     gridRef := g; clock := clock w; uncaught := uncaught w |}.

Definition set_clock (t : Z) (w : World) : World :=
  {| viewportState := viewportState w; isMounted := isMounted w;
     autoSizer := autoSizer w; debounceResizer := debounceResizer w;
     gridRef := gridRef w; clock := t; uncaught := uncaught w |}.

Definition throw_uncaught (e : JsError) (w : World) : World :=
  {| viewportState := viewportState w; isMounted := isMounted w;
     autoSizer := autoSizer w; debounceResizer := debounceResizer w;
     gridRef := gridRef w; clock := clock w; uncaught := uncaught w ++ [e] |}.

(** The state monad of hook callbacks. *)
Definition Hook (A : Type) : Type := World -> A * World.

Definition ret {A} (a : A) : Hook A := fun w => (a, w).

Definition bind {A B} (m : Hook A) (k : A -> Hook B) : Hook B :=
  fun w => let (a, w') := m w in k a w'.

Definition gets {A} (f : World -> A) : Hook A := fun w => (f w, w).

Definition modify (f : World -> World) : Hook unit := fun w => (tt, f w).

Declare Scope hook_scope.
Delimit Scope hook_scope with hook.
Notation "x <- m ;; k" := (bind m (fun x => k))
  (at level 61, m at next level, right associativity) : hook_scope.
Notation "m ;; k" := (bind m (fun _ => k))
  (at level 61, right associativity) : hook_scope.

(** ** Props *)

Record IProps := {
  getValue : CellInterface -> JsValue;
  initialVisibleRows : option Z;
  minColumnWidth : option Z;
  cellSpacing : option Z;
  timeout : option Z;
  resizeOnScroll : option bool;
  font : option string;
  resizeStrategy : option ResizeStrategy;
  rowCount : option Z
}.

Definition with_default {A} (d : A) (o : option A) : A :=
  match o with Some a => a | None => d end.

(** ** The hook *)

Definition invariant_message : string :=
  "Row count should be specified if resize stragtegy is full".

(** What the host provides when the hook is first called. *)
Record Host := {
  host_context : option CanvasRenderingContext2D;
  host_grid : option GridRef;
  host_now : Z
}.

Section Hook.

Variable props : IProps.

Definition initialVisibleRows' : Z := with_default 20 (initialVisibleRows props).
Definition cellSpacing' : Z := with_default 10 (cellSpacing props).
Definition minColumnWidth' : Z := with_default 60 (minColumnWidth props).
Definition timeout' : Z := with_default 300 (timeout props).
Definition resizeStrategy' : ResizeStrategy :=
  with_default lazy (resizeStrategy props).
Definition resizeOnScroll' : bool := with_default true (resizeOnScroll props).
Definition font' : string := with_default "12px Arial"%string (font props).

(** [resizeStrategy === ResizeStrategy.full && rowCount === void 0] *)
Definition full_without_rowCount : bool :=
  ResizeStrategy_eqb resizeStrategy' full &&
  match rowCount props with None => true | Some _ => false end.

(** The cells the first call of the hook allocates. *)
Definition initial_cells (host : Host) : World :=
  {| viewportState :=
       {| rowStartIndex := 0; rowStopIndex := 0;
          columnStartIndex := 0; columnStopIndex := 0 |};
     isMounted := false;
     autoSizer := AutoSizerCanvas.make (host_context host) font';
     debounceResizer := Debounce.make timeout';
     gridRef := host_grid host;
     clock := host_now host;
     uncaught := [] |}.

(** [invariant(cond, message)] throws when [cond] is false. *)
Definition invariant (cond : bool) (message : string) : JsError + unit :=
  if cond then inr tt else inl (InvariantError message).

(** The first call of the hook: the invariant, then the initial cells. *)
Definition useAutoSizer (host : Host) : JsError + World :=
  match invariant (negb full_without_rowCount) invariant_message with
  | inl e => inl e
  | inr _ => inr (initial_cells host)
  end.

(** [useEffect(() => { isMounted.current = true }, [])] *)
Definition mountEffect : Hook unit := modify (set_isMounted true).

(** [useEffect(() => { autoSizer.current.setFont(font) }, [font])] *)
Definition fontEffect : Hook unit :=
  modify (fun w =>
            set_autoSizer (AutoSizerCanvas.setFont (Some font') (autoSizer w)) w).

(** *** getColumnWidth *)

(** The variables of the [while] loop; [sampled] is a ghost field listing
    the cells handed to [getValue] so far, oldest first. *)
Record LoopState := {
  start : Z;
  maxWidth : Z;
  sampled : list CellInterface
}.

Definition visibleRows (viewport : ViewPortProps) : option Z :=
  match resizeStrategy' with
  | full => rowCount props
  | lazy => Some (js_or (rowStopIndex viewport) initialVisibleRows')
  end.

Definition measureText (text : string) : Hook (option TextMetrics) :=
  gets (fun w => AutoSizerCanvas.measureText (autoSizer w) text).

Local Open Scope hook_scope.

(** One run of the loop body, [start++] included. *)
Definition iteration (columnIndex : Z) (s : LoopState) : Hook LoopState :=
  let cell := {| rowIndex := start s; columnIndex := columnIndex |} in
  let value := nullish_or_null (getValue props cell) in
  maxWidth1 <-
    (if not_null value then
       metrics <- measureText (to_text value) ;;
       match metrics with
       | Some m =>
           let width := Qceiling (width m) + cellSpacing' in
           ret (if width >? maxWidth s then width else maxWidth s)
       | None => ret (maxWidth s)
       end
     else ret (maxWidth s)) ;;
  ret {| start := start s + 1; maxWidth := maxWidth1;
         sampled := sampled s ++ [cell] |}.

(** Keeps the equation of a case split for the termination argument. *)
Definition inspect {A} (a : A) : {b : A | a = b} := exist _ a eq_refl.

(** Rows left before [start] reaches the bound. *)
Definition remaining (bound : option Z) (start : Z) : nat :=
  match bound with
  | Some b => Z.to_nat (b - start)
  | None => 0
  end.

Equations? while_loop (columnIndex : Z) (bound : option Z) (s : LoopState)
  (w : World) : LoopState * World by wf (remaining bound (start s)) lt :=
  while_loop columnIndex bound s w with inspect (js_lt (start s) bound) := {
    | exist _ true e =>
        while_loop columnIndex bound
                   (fst (iteration columnIndex s w))
                   (snd (iteration columnIndex s w));
    | exist _ false e => (s, w) }.
Proof.
  destruct bound as [b|]; simpl in *; [|discriminate].
  apply Z.ltb_lt in e.
  unfold iteration, bind, ret, measureText, gets; simpl.
  destruct (not_null _); [destruct (AutoSizerCanvas.measureText _ _)|];
    simpl; lia.
Qed.

Definition getColumnWidth_loop (viewport : ViewPortProps) (columnIndex : Z)
  : Hook LoopState :=
  while_loop columnIndex (visibleRows viewport)
             {| start := rowStartIndex viewport;
                maxWidth := minColumnWidth';
                sampled := [] |}.

Definition getColumnWidth (viewport : ViewPortProps) (columnIndex : Z)
  : Hook Z :=
  s <- getColumnWidth_loop viewport columnIndex ;;
  ret (maxWidth s).

(** *** handleViewChange *)

Definition setViewport (cells : ViewPortProps) : Hook unit :=
  modify (set_viewportState cells).

(** [debounceResizer.current(args)] *)
Definition callDebounceResizer (args : CellInterface) : Hook unit :=
  modify (fun w =>
            set_debounceResizer
              (Debounce.call (clock w) args (debounceResizer w)) w).

Definition handleViewChange (viewport : ViewPortProps) (cells : ViewPortProps)
  : Hook unit :=
  setViewport cells ;;
  if ResizeStrategy_eqb resizeStrategy' full
     || negb resizeOnScroll'
     || ((rowStartIndex cells =? rowStartIndex viewport)
         && (columnStartIndex cells =? columnStartIndex viewport))
  then ret tt
  else
    g <- gets gridRef ;;
    match g with
    | Some _ =>
        m <- gets isMounted ;;
        if negb m then ret tt
        else callDebounceResizer
               {| rowIndex := rowStartIndex cells;
                  columnIndex := columnStartIndex cells |}
    | None => ret tt
    end.

(** *** What the hook returns, bound to the current render *)

Definition columnWidth (columnIndex : Z) : Hook Z :=
  fun w => getColumnWidth (viewportState w) columnIndex w.

Definition onViewChange (cells : ViewPortProps) : Hook unit :=
  fun w => handleViewChange (viewportState w) cells w.

(** *** Timer tasks and the event loop *)

(** The debounced callback:
    [gridRef.current.resetAfterIndices({ rowIndex, columnIndex })]. *)
Definition resizerCallback (args : CellInterface) (w : World) : World :=
  match gridRef w with
  | Some g => set_gridRef (Some (resetAfterIndices args g)) w
  | None => throw_uncaught (TypeError "gridRef.current is undefined") w
  end.

(** Modelled from the spec: the timer side of the missing [debounce].  The
    host clock moves to [t] (never backwards); a timer that is due by then
    is taken out of its slot and its callback runs. *)
Definition advance_to (t : Z) (w : World) : World :=
  let t := Z.max t (clock w) in
  match Debounce.due t (debounceResizer w) with
  | Some args =>
      set_clock t
        (resizerCallback args
           (set_debounceResizer (Debounce.clear (debounceResizer w)) w))
  | None => set_clock t w
  end.

Inductive Event :=
| EvMount                                (* the effects after the first commit *)
| EvViewChange (cells : ViewPortProps)   (* the grid calls onViewChange *)
| EvColumnWidth (columnIndex : Z)        (* the grid calls columnWidth *)
| EvGridRef (g : option GridRef).        (* the host (un)sets gridRef.current *)

Definition dispatch (ev : Event) : Hook unit :=
  match ev with
  | EvMount => mountEffect ;; fontEffect
  | EvViewChange cells => onViewChange cells
  | EvColumnWidth columnIndex => _ <- columnWidth columnIndex ;; ret tt
  | EvGridRef g => modify (set_gridRef g)
  end.

(** An event stamped with the time it happens at. *)
Definition step (w : World) (e : Z * Event) : World :=
  snd (dispatch (snd e) (advance_to (fst e) w)).

Definition run (w : World) (timeline : list (Z * Event)) : World :=
  fold_left step timeline w.

(** The mounted flag in the states a timeline goes through, oldest first. *)
Fixpoint mounted_history (w : World) (timeline : list (Z * Event))
  : list bool :=
  match timeline with
  | [] => [isMounted w]
  | e :: rest => isMounted w :: mounted_history (step w e) rest
  end.

(** [n] runs of the loop body in a row. *)
Fixpoint iterate (n : nat) (columnIndex : Z) (s : LoopState)
  : Hook LoopState :=
  match n with
  | O => ret s
  | S n => s1 <- iteration columnIndex s ;; iterate n columnIndex s1
  end.

(** *** Vocabulary of the specification *)

(** [count] consecutive rows from [from] on. *)
Fixpoint rows_from (from : Z) (count : nat) : list Z :=
  match count with
  | O => []
  | S n => from :: rows_from (from + 1) n
  end.

(** The rows between the viewport's first row and the sampling bound. *)
Definition sampledRows (viewport : ViewPortProps) : list Z :=
  rows_from (rowStartIndex viewport)
            (remaining (visibleRows viewport) (rowStartIndex viewport)).

(** The width a row asks for: none when its value is null or undefined, or
    when the canvas gives no metrics. *)
Definition candidateWidth (a : AutoSizerCanvas.t) (columnIndex row : Z)
  : option Z :=
  match getValue props {| rowIndex := row; columnIndex := columnIndex |} with
  | JsText text =>
      match AutoSizerCanvas.measureText a text with
      | Some m => Some (Qceiling (width m) + cellSpacing')
      | None => None
      end
  | JsUndefined | JsNull => None
  end.

Fixpoint candidateWidths (a : AutoSizerCanvas.t) (columnIndex : Z)
  (rows : list Z) : list Z :=
  match rows with
  | [] => []
  | row :: rest =>
      match candidateWidth a columnIndex row with
      | Some x => x :: candidateWidths a columnIndex rest
      | None => candidateWidths a columnIndex rest
      end
  end.

(** The largest of [floor] and the members of [l]. *)
Definition max_of (floor : Z) (l : list Z) : Z := fold_right Z.max floor l.

(** A change of viewport that the coordinator does not suppress. *)
Definition start_moved (viewport cells : ViewPortProps) : bool :=
  negb ((rowStartIndex cells =? rowStartIndex viewport)
        && (columnStartIndex cells =? columnStartIndex viewport)).

Definition qualifies (w : World) (cells : ViewPortProps) : bool :=
  ResizeStrategy_eqb resizeStrategy' lazy
  && resizeOnScroll'
  && start_moved (viewportState w) cells
  && match gridRef w with Some _ => true | None => false end.

(** A burst of viewport changes: every call comes less than [delay] after
    the one before, and moves a start index of the viewport before it. *)
Fixpoint within_delay (delay : Z) (t : Z) (later : list Z) : bool :=
  match later with
  | [] => true
  | t1 :: rest => (t <=? t1) && (t1 <? t + delay) && within_delay delay t1 rest
  end.

Fixpoint start_moves (viewport : ViewPortProps) (calls : list ViewPortProps)
  : bool :=
  match calls with
  | [] => true
  | cells :: rest => start_moved viewport cells && start_moves cells rest
  end.

Definition view_changes (burst : list (Z * ViewPortProps))
  : list (Z * Event) :=
  map (fun c => (fst c, EvViewChange (snd c))) burst.

Definition origin (cells : ViewPortProps) : CellInterface :=
  {| rowIndex := rowStartIndex cells; columnIndex := columnStartIndex cells |}.

End Hook.

(** [p] with the values the canvas [a] cannot measure replaced by [null]. *)
Definition blank_unmeasured (a : AutoSizerCanvas.t) (p : IProps) : IProps :=
  {| getValue := fun cell =>
       match AutoSizerCanvas.measureText a (to_text (getValue p cell)) with
       | Some _ => getValue p cell
       | None => JsNull
       end;
     initialVisibleRows := initialVisibleRows p;
     minColumnWidth := minColumnWidth p;
     cellSpacing := cellSpacing p;
     timeout := timeout p;
     resizeOnScroll := resizeOnScroll p;
     font := font p;
     resizeStrategy := resizeStrategy p;
     rowCount := rowCount p |}.

(** Two sets of props that differ at most in their value accessor. *)
Definition same_configuration (p q : IProps) : Prop :=
  initialVisibleRows p = initialVisibleRows q /\
  minColumnWidth p = minColumnWidth q /\
  cellSpacing p = cellSpacing q /\
  timeout p = timeout q /\
  resizeOnScroll p = resizeOnScroll q /\
  font p = font q /\
  resizeStrategy p = resizeStrategy q /\
  rowCount p = rowCount q.

(** How often the flag changes along a history. *)
Fixpoint flips (history : list bool) : nat :=
  match history with
  | a :: (b :: _) as rest => ((if Bool.eqb a b then 0 else 1) + flips rest)%nat
  | _ => 0%nat
  end.

Definition is_mount (ev : Event) : bool :=
  match ev with EvMount => true | _ => false end.

(** The state right after an accepted viewport change at time [t]: the grid
    [g] is attached, the hook is mounted, and the resizer is armed for
    [cells]. *)
Definition armed (p : IProps) (w : World) (g : GridRef) (t : Z)
  (cells : ViewPortProps) : Prop :=
  gridRef w = Some g /\
  isMounted w = true /\
  clock w = t /\
  viewportState w = cells /\
  debounceResizer w =
  {| Debounce.wait := timeout' p;
     Debounce.pending := Some (origin cells, t + timeout' p) |}.

(** ** Sample configurations *)

Definition default_props (values : CellInterface -> JsValue) : IProps :=
  {| getValue := values;
     initialVisibleRows := None; minColumnWidth := None; cellSpacing := None;
     timeout := None; resizeOnScroll := None; font := None;
     resizeStrategy := None; rowCount := None |}.

(** A surface on which every character is seven and a half pixels wide. *)
Definition monospace : CanvasRenderingContext2D :=
  {| ctx_font := "10px sans-serif";
     ctx_extent := fun _ text =>
       Qmult (15 # 2) (inject_Z (Z.of_nat (String.length text))) |}.

Definition names (cell : CellInterface) : JsValue :=
  if rowIndex cell =? 0 then JsText "id"
  else if rowIndex cell =? 1 then JsNull
  else if rowIndex cell =? 2 then JsText "a much longer cell"
  else JsUndefined.

Definition sample_host : Host :=
  {| host_context := Some monospace;
     host_grid := Some {| resetAfterIndices_calls := [] |};
     host_now := 0 |}.

Definition view (r0 r1 c0 c1 : Z) : ViewPortProps :=
  {| rowStartIndex := r0; rowStopIndex := r1;
     columnStartIndex := c0; columnStopIndex := c1 |}.

(** A host whose canvas gives no 2d context. *)
Definition blind_host : Host :=
  {| host_context := None;
     host_grid := Some {| resetAfterIndices_calls := [] |};
     host_now := 0 |}.

(** [names], but for a row far below the sampled ones. *)
Definition names_but_row_100 (cell : CellInterface) : JsValue :=
  if rowIndex cell =? 100 then JsText "out of sight" else names cell.

Definition no_values (cell : CellInterface) : JsValue := JsNull.

(** The full strategy asked for without a row count. *)
Definition full_props_without_rowCount : IProps :=
  {| getValue := names;
     initialVisibleRows := None; minColumnWidth := None; cellSpacing := None;
     timeout := None; resizeOnScroll := None; font := None;
     resizeStrategy := Some full; rowCount := None |}.

(** The hook of [names] after its first render, and after its mount. *)
Definition first_render : World :=
  initial_cells (default_props names) sample_host.

Definition mounted_sample : World :=
  run (default_props names) first_render [(0, EvMount)].

(** ** Vocabulary for timelines *)

(** The viewport of the last view change of a timeline; [v] if there is
    none. *)
Definition last_view (v : ViewPortProps) (timeline : list (Z * Event))
  : ViewPortProps :=
  fold_left (fun v e => match snd e with
                        | EvViewChange cells => cells
                        | _ => v
                        end) timeline v.

(** What the host last put in [gridRef.current]; [g] if it never did. *)
Definition last_gridRef (g : option GridRef) (timeline : list (Z * Event))
  : option GridRef :=
  fold_left (fun g e => match snd e with
                        | EvGridRef g1 => g1
                        | _ => g
                        end) timeline g.

(** The event is a viewport change that gets past every guard of the
    handler. *)
Definition accepts (p : IProps) (w : World) (ev : Event) : bool :=
  match ev with
  | EvViewChange cells => qualifies p w cells && isMounted w
  | _ => false
  end.

Definition never_mounts (timeline : list (Z * Event)) : bool :=
  forallb (fun e => negb (is_mount (snd e))) timeline.

Definition never_attaches (timeline : list (Z * Event)) : bool :=
  forallb (fun e => match snd e with
                    | EvGridRef (Some _) => false
                    | _ => true
                    end) timeline.

(** Every view change of the timeline has the start indices of [v]. *)
Definition keeps_start (v : ViewPortProps) (timeline : list (Z * Event))
  : bool :=
  forallb (fun e => match snd e with
                    | EvViewChange cells => negb (start_moved v cells)
                    | _ => true
                    end) timeline.

(** Every call comes at least [delay] after the one before. *)
Fixpoint spaced (delay : Z) (t : Z) (later : list Z) : bool :=
  match later with
  | [] => true
  | t1 :: rest => (t <=? t1) && (t + delay <=? t1) && spaced delay t1 rest
  end.

(** The full strategy over three rows. *)
Definition full_props (values : CellInterface -> JsValue) : IProps :=
  {| getValue := values;
     initialVisibleRows := None; minColumnWidth := None; cellSpacing := None;
     timeout := None; resizeOnScroll := None; font := None;
     resizeStrategy := Some full; rowCount := Some 3 |}.

(** [names] with the null of row 1 turned into undefined. *)
Definition names_undefined (cell : CellInterface) : JsValue :=
  if rowIndex cell =? 1 then JsUndefined else names cell.

(** A surface on which a bold font doubles every extent. *)
Definition two_fonts : CanvasRenderingContext2D :=
  {| ctx_font := "10px sans-serif";
     ctx_extent := fun f text =>
       if String.eqb f "bold" then
         Qmult (inject_Z 2) (inject_Z (Z.of_nat (String.length text)))
       else inject_Z (Z.of_nat (String.length text)) |}.

Definition bold_props : IProps :=
  {| getValue := names;
     initialVisibleRows := None; minColumnWidth := Some 0; cellSpacing := None;
     timeout := None; resizeOnScroll := None; font := Some "bold"%string;
     resizeStrategy := None; rowCount := None |}.

Definition scrolling : list (Z * Event) :=
  [(5, EvViewChange (view 1 5 0 3)); (20, EvColumnWidth 0);
   (400, EvViewChange (view 2 6 1 4)); (900, EvColumnWidth 1)].

(** A host that has not attached its grid. *)
Definition detached_host : Host :=
  {| host_context := Some monospace; host_grid := None; host_now := 0 |}.

(** [mounted_sample] after an accepted view change at time 10. *)
Definition armed_sample : World :=
  step (default_props names) mounted_sample (10, EvViewChange (view 1 5 0 3)).

Definition growing : list (Z * Event) :=
  [(5, EvViewChange (view 0 5 0 3)); (400, EvViewChange (view 0 9 0 7))].

(** * Facts *)

Lemma ResizeStrategy_eqb_eq a b : ResizeStrategy_eqb a b = true <-> a = b.
Proof. destruct a, b; simpl; split; congruence. Qed.

Lemma max_of_max a b l : max_of (Z.max a b) l = Z.max b (max_of a l).
Proof. induction l as [|x l IH]; simpl; lia. Qed.

Lemma max_of_floor floor l : floor <= max_of floor l.
Proof. induction l as [|x l IH]; simpl; lia. Qed.

Lemma max_of_upper floor l x : In x l -> x <= max_of floor l.
Proof.
  induction l as [|y l IH]; simpl; [tauto|].
  intros [->|Hin]; [lia|]. specialize (IH Hin). lia.
Qed.

Lemma max_of_attained floor l : max_of floor l = floor \/ In (max_of floor l) l.
Proof.
  induction l as [|y l IH]; simpl; [now left|].
  destruct (Z.max_spec y (max_of floor l)) as [[_ ->]|[_ ->]]; tauto.
Qed.

Lemma In_rows_from n : forall from r,
  In r (rows_from from n) <-> from <= r < from + Z.of_nat n.
Proof.
  induction n as [|n IH]; intros from r; simpl; [lia|].
  rewrite IH. lia.
Qed.

Lemma length_rows_from n from : List.length (rows_from from n) = n.
Proof. revert from; induction n; intros; simpl; congruence. Qed.

Section LoopFacts.

Variable props : IProps.

(** The outcome of one run of the body, spelled out. *)
Lemma iteration_eq columnIndex s w :
  iteration props columnIndex s w =
  ({| start := start s + 1;
      maxWidth :=
        match candidateWidth props (autoSizer w) columnIndex (start s) with
        | Some x => Z.max (maxWidth s) x
        | None => maxWidth s
        end;
      sampled := sampled s ++
                 [{| rowIndex := start s; columnIndex := columnIndex |}] |}, w).
Proof.
  unfold iteration, candidateWidth, bind, ret, measureText, gets.
  destruct (getValue props _) as [| |text]; simpl; try reflexivity.
  destruct (AutoSizerCanvas.measureText _ _) as [m|]; simpl; [|reflexivity].
  do 3 f_equal.
  destruct (Z.gtb_spec (Qceiling (width m) + cellSpacing' props) (maxWidth s));
    lia.
Qed.

Lemma remaining_step bound from :
  js_lt from bound = true ->
  remaining bound from = S (remaining bound (from + 1)).
Proof.
  destruct bound as [b|]; simpl; [|discriminate].
  intros H%Z.ltb_lt. lia.
Qed.

Lemma remaining_done bound from :
  js_lt from bound = false -> remaining bound from = 0%nat.
Proof.
  destruct bound as [b|]; simpl; [|reflexivity].
  intros H%Z.ltb_ge. lia.
Qed.

(** The loop is [remaining] runs of its body. *)
Lemma while_loop_iterate columnIndex bound s w :
  while_loop props columnIndex bound s w =
  iterate props (remaining bound (start s)) columnIndex s w.
Proof.
  funelim (while_loop props columnIndex bound s w).
  - clear Heqcall. rewrite (remaining_step _ _ e). cbn [iterate].
    unfold bind at 1. rewrite H, !iteration_eq. reflexivity.
  - rewrite (remaining_done _ _ e). reflexivity.
Qed.

Lemma iterate_eq n columnIndex : forall s w,
  iterate props n columnIndex s w =
  ({| start := start s + Z.of_nat n;
      maxWidth :=
        max_of (maxWidth s)
               (candidateWidths props (autoSizer w) columnIndex
                                (rows_from (start s) n));
      sampled := sampled s ++
                 map (fun r => {| rowIndex := r; columnIndex := columnIndex |})
                     (rows_from (start s) n) |}, w).
Proof.
  induction n as [|n IH]; intros s w.
  - simpl. unfold ret. rewrite Z.add_0_r, app_nil_r. now destruct s.
  - cbn [iterate]. unfold bind. rewrite iteration_eq, IH.
    cbn [start maxWidth sampled rows_from candidateWidths map].
    rewrite <- app_assoc. cbn [app].
    f_equal. f_equal; [lia|].
    destruct (candidateWidth props (autoSizer w) columnIndex (start s));
      [|reflexivity].
    cbn [max_of fold_right]. apply max_of_max.
Qed.

Lemma getColumnWidth_loop_eq viewport columnIndex w :
  getColumnWidth_loop props viewport columnIndex w =
  ({| start := rowStartIndex viewport
               + Z.of_nat (List.length (sampledRows props viewport));
      maxWidth :=
        max_of (minColumnWidth' props)
               (candidateWidths props (autoSizer w) columnIndex
                                (sampledRows props viewport));
      sampled := map (fun r => {| rowIndex := r; columnIndex := columnIndex |})
                     (sampledRows props viewport) |}, w).
Proof.
  unfold getColumnWidth_loop. rewrite while_loop_iterate, iterate_eq.
  unfold sampledRows. cbn [start maxWidth sampled app].
  now rewrite length_rows_from.
Qed.

Lemma getColumnWidth_eq viewport columnIndex w :
  getColumnWidth props viewport columnIndex w =
  (max_of (minColumnWidth' props)
          (candidateWidths props (autoSizer w) columnIndex
                           (sampledRows props viewport)), w).
Proof.
  unfold getColumnWidth, bind. now rewrite getColumnWidth_loop_eq.
Qed.

Lemma candidateWidths_none a columnIndex rows :
  (forall row, In row rows -> candidateWidth props a columnIndex row = None) ->
  candidateWidths props a columnIndex rows = [].
Proof.
  induction rows as [|r rows IH]; intros H; simpl; [reflexivity|].
  rewrite (H r) by now left. apply IH. intros; apply H; now right.
Qed.

End LoopFacts.

(** ** The width estimator *)

(** C1: for every column index, [columnWidth] returns the maximum of
    [minColumnWidth] and, over the sampled rows whose value is not
    null/undefined, [ceil(metrics.width) + cellSpacing]; so it is never
    below [minColumnWidth], and it is exactly [minColumnWidth] when every
    sampled value is null/undefined (in particular when no row is
    sampled). *)
Theorem columnWidth_is_floored_maximum (props : IProps) (col : Z) (w : World) :
  let result := fst (columnWidth props col w) in
  let rows := sampledRows props (viewportState w) in
  let candidates := candidateWidths props (autoSizer w) col rows in
  result = max_of (minColumnWidth' props) candidates
  /\ minColumnWidth' props <= result
  /\ (forall x, In x candidates -> x <= result)
  /\ (result = minColumnWidth' props \/ In result candidates)
  /\ ((forall row, In row rows ->
         nullish_or_null
           (getValue props {| rowIndex := row; columnIndex := col |}) = JsNull) ->
      result = minColumnWidth' props).
Proof.
  cbv zeta. unfold columnWidth. rewrite getColumnWidth_eq. cbn [fst].
  repeat split.
  - apply max_of_floor.
  - intros x. apply max_of_upper.
  - apply max_of_attained.
  - intros Hnull. rewrite candidateWidths_none; [reflexivity|].
    intros row Hin. specialize (Hnull row Hin). unfold candidateWidth.
    destruct (getValue props _); simpl in Hnull; congruence.
Qed.

(** C2, as amended: with a strategy other than full, the exclusive sampling
    bound is the viewport's [rowStopIndex] when that is not 0 and
    [initialVisibleRows] when it is 0; with the full strategy it is
    [rowCount].  In both cases the rows handed to [getValue] are the
    consecutive rows from the viewport's [rowStartIndex] up to the bound,
    exclusive. *)
Theorem sampling_bound (props : IProps) (viewport : ViewPortProps) (col : Z)
  (w : World) :
  (resizeStrategy' props <> full ->
   visibleRows props viewport =
   Some (if rowStopIndex viewport =? 0 then initialVisibleRows' props
         else rowStopIndex viewport))
  /\ (resizeStrategy' props = full ->
      visibleRows props viewport = rowCount props)
  /\ sampled (fst (getColumnWidth_loop props viewport col w)) =
     map (fun r => {| rowIndex := r; columnIndex := col |})
         (sampledRows props viewport)
  /\ (forall r, In r (sampledRows props viewport) <->
                rowStartIndex viewport <= r
                /\ js_lt r (visibleRows props viewport) = true).
Proof.
  split; [|split; [|split]].
  - unfold visibleRows, js_or. destruct (resizeStrategy' props); congruence.
  - unfold visibleRows. now intros ->.
  - now rewrite getColumnWidth_loop_eq.
  - intros r. unfold sampledRows. rewrite In_rows_from.
    destruct (visibleRows props viewport) as [b|]; simpl.
    + rewrite Z.ltb_lt. lia.
    + split; [lia|]. intros [_ H]; discriminate.
Qed.

(** C10: the sampling loop terminates for every viewport and configuration:
    it is exactly [max(0, bound - rowStartIndex)] runs of its body, the row
    index going up by one each time; the loop condition holds before each
    of these runs and fails after the last. *)
Theorem sampling_loop_terminates (props : IProps) (viewport : ViewPortProps)
  (col : Z) (w : World) :
  let init := {| start := rowStartIndex viewport;
                 maxWidth := minColumnWidth' props;
                 sampled := [] |} in
  let bound := visibleRows props viewport in
  let n := remaining bound (rowStartIndex viewport) in
  getColumnWidth_loop props viewport col w = iterate props n col init w
  /\ (forall k, start (fst (iterate props k col init w)) =
                rowStartIndex viewport + Z.of_nat k)
  /\ (forall k, (k < n)%nat ->
                js_lt (start (fst (iterate props k col init w))) bound = true)
  /\ js_lt (start (fst (iterate props n col init w))) bound = false
  /\ List.length (sampled (fst (getColumnWidth_loop props viewport col w))) = n
  /\ (forall b, bound = Some b ->
                n = Z.to_nat (Z.max 0 (b - rowStartIndex viewport))).
Proof.
  cbv zeta.
  assert (Hstart : forall k,
    start (fst (iterate props k col
                  {| start := rowStartIndex viewport;
                     maxWidth := minColumnWidth' props;
                     sampled := [] |} w)) =
    rowStartIndex viewport + Z.of_nat k)
    by (intros k; now rewrite iterate_eq).
  split; [|split; [|split; [|split; [|split]]]].
  - unfold getColumnWidth_loop. now rewrite while_loop_iterate.
  - exact Hstart.
  - intros k Hk. rewrite Hstart.
    destruct (visibleRows props viewport) as [b|]; simpl in *; [|lia].
    apply Z.ltb_lt. lia.
  - rewrite Hstart.
    destruct (visibleRows props viewport) as [b|]; simpl; [|reflexivity].
    apply Z.ltb_ge. lia.
  - rewrite getColumnWidth_loop_eq. cbn [fst sampled].
    rewrite length_map. apply length_rows_from.
  - intros b ->. simpl. lia.
Qed.

Lemma candidateWidth_blank_unmeasured props a col row :
  candidateWidth (blank_unmeasured a props) a col row =
  candidateWidth props a col row.
Proof.
  unfold candidateWidth, blank_unmeasured; cbn [getValue cellSpacing].
  destruct (getValue props _) as [| |text]; cbn [to_text].
  - now destruct (AutoSizerCanvas.measureText a "undefined").
  - now destruct (AutoSizerCanvas.measureText a "null").
  - destruct (AutoSizerCanvas.measureText a text) as [m|] eqn:E;
      [now rewrite E | reflexivity].
Qed.

Lemma candidateWidths_ext p q a col rows :
  (forall row, In row rows ->
     candidateWidth p a col row = candidateWidth q a col row) ->
  candidateWidths p a col rows = candidateWidths q a col rows.
Proof.
  induction rows as [|r rows IH]; intros H; simpl; [reflexivity|].
  rewrite (H r) by now left.
  rewrite IH by (intros; apply H; now right). reflexivity.
Qed.

(** C8: when the canvas returns no metrics for a sampled value that is not
    null, the loop body leaves the running maximum alone and moves on to the
    next row, as it does for a null value; the whole estimate is the one
    obtained with these values replaced by null, no row of the range is left
    out, and a result is returned. *)
Theorem unmeasured_value_is_skipped (props : IProps) (col : Z) (w : World) :
  (forall s,
     let cell := {| rowIndex := start s; columnIndex := col |} in
     let value := nullish_or_null (getValue props cell) in
     not_null value = true ->
     AutoSizerCanvas.measureText (autoSizer w) (to_text value) = None ->
     getValue (blank_unmeasured (autoSizer w) props) cell = JsNull
     /\ iteration props col s w =
        iteration (blank_unmeasured (autoSizer w) props) col s w
     /\ iteration props col s w =
        ({| start := start s + 1; maxWidth := maxWidth s;
            sampled := sampled s ++ [cell] |}, w))
  /\ columnWidth props col w =
     columnWidth (blank_unmeasured (autoSizer w) props) col w
  /\ sampled (fst (getColumnWidth_loop props (viewportState w) col w)) =
     map (fun r => {| rowIndex := r; columnIndex := col |})
         (sampledRows props (viewportState w))
  /\ (AutoSizerCanvas.context (autoSizer w) = None ->
      columnWidth props col w = (minColumnWidth' props, w)).
Proof.
  split; [|split; [|split]].
  - intros s cell value Hnn Hnone. subst cell value.
    rewrite !iteration_eq, candidateWidth_blank_unmeasured.
    unfold candidateWidth, blank_unmeasured; cbn [getValue].
    destruct (getValue props _) as [| |text]; simpl in *; try discriminate.
    rewrite Hnone. repeat split.
  - unfold columnWidth. rewrite !getColumnWidth_eq.
    f_equal. f_equal. apply candidateWidths_ext.
    intros; symmetry; apply candidateWidth_blank_unmeasured.
  - now rewrite getColumnWidth_loop_eq.
  - intros Hctx. unfold columnWidth. rewrite getColumnWidth_eq.
    rewrite candidateWidths_none; [reflexivity|].
    intros row _. unfold candidateWidth, AutoSizerCanvas.measureText.
    rewrite Hctx. now destruct (getValue props _).
Qed.

Lemma same_configuration_sampledRows p q viewport :
  same_configuration p q -> sampledRows p viewport = sampledRows q viewport.
Proof.
  intros (Hi & _ & _ & _ & _ & _ & Hs & Hr).
  unfold sampledRows, visibleRows, resizeStrategy', initialVisibleRows'.
  now rewrite Hi, Hs, Hr.
Qed.

(** C9: [columnWidth] is deterministic and has no side effect: two calls
    with the same column index, the same cached viewport and configuration,
    the same values on the sampled rows and the same canvas (font included)
    return equal widths, whatever else differs between the two states; a
    call leaves the whole hook state as it was: cached viewport, mounted
    flag and pending debounced call. *)
Theorem columnWidth_deterministic (p q : IProps) (col : Z) (w1 w2 : World) :
  same_configuration p q ->
  viewportState w1 = viewportState w2 ->
  autoSizer w1 = autoSizer w2 ->
  (forall row, In row (sampledRows p (viewportState w1)) ->
     getValue p {| rowIndex := row; columnIndex := col |} =
     getValue q {| rowIndex := row; columnIndex := col |}) ->
  fst (columnWidth p col w1) = fst (columnWidth q col w2)
  /\ snd (columnWidth p col w1) = w1
  /\ snd (columnWidth q col w2) = w2
  /\ columnWidth p col (snd (columnWidth p col w1)) = columnWidth p col w1.
Proof.
  intros Hcfg Hv Ha Hvals. unfold columnWidth.
  rewrite !getColumnWidth_eq. cbn [fst snd]. rewrite ?getColumnWidth_eq.
  repeat split.
  rewrite <- Hv, <- Ha, <- (same_configuration_sampledRows p q _ Hcfg).
  destruct Hcfg as (_ & Hm & Hc & _).
  unfold minColumnWidth'. rewrite Hm. f_equal.
  apply candidateWidths_ext. intros row Hin.
  unfold candidateWidth, cellSpacing'. now rewrite (Hvals row Hin), Hc.
Qed.

(** ** Construction *)

(** C5: the first call of the hook fails if and only if the strategy is
    full and [rowCount] is undefined; the failure is the invariant's error,
    raised before any state exists; in every other case the call succeeds,
    and under the full strategy the sampling bound is then the known row
    count. *)
Theorem construction_fails_iff (props : IProps) (host : Host) :
  ((exists e, useAutoSizer props host = inl e) <->
   resizeStrategy' props = full /\ rowCount props = None)
  /\ ((exists w, useAutoSizer props host = inr w) <->
      ~ (resizeStrategy' props = full /\ rowCount props = None))
  /\ (forall e, useAutoSizer props host = inl e ->
                e = InvariantError invariant_message)
  /\ (forall w, useAutoSizer props host = inr w ->
                w = initial_cells props host
                /\ (resizeStrategy' props = full ->
                    exists n, rowCount props = Some n /\
                              forall viewport,
                                visibleRows props viewport = Some n)).
Proof.
  assert (Hcases :
    (resizeStrategy' props = full /\ rowCount props = None
     /\ useAutoSizer props host = inl (InvariantError invariant_message))
    \/ (~ (resizeStrategy' props = full /\ rowCount props = None)
        /\ useAutoSizer props host = inr (initial_cells props host))).
  { unfold useAutoSizer, invariant, full_without_rowCount.
    destruct (resizeStrategy' props), (rowCount props); simpl;
      [right | right | right | left]; repeat split;
      intros [? ?]; discriminate. }
  destruct Hcases as [(Hs & Hr & ->)|(Hn & ->)].
  - split; [|split; [|split]].
    + split; [now intros _ | intros _; eexists; reflexivity].
    + split; [intros [? ?]; discriminate | intros H; exfalso; now apply H].
    + now intros e [= <-].
    + intros ? ?; discriminate.
  - split; [|split; [|split]].
    + split; [intros [? ?]; discriminate | intros H; exfalso; now apply Hn].
    + split; [now intros _ | intros _; eexists; reflexivity].
    + intros ? ?; discriminate.
    + intros w [= <-]. split; [reflexivity|]. intros Hfull.
      unfold visibleRows. rewrite Hfull.
      destruct (rowCount props) as [n|]; [|exfalso; now apply Hn].
      exists n. now split.
Qed.

(** ** The viewport change coordinator *)

Section CoordinatorFacts.

Variable props : IProps.

(** The outcome of the handler, spelled out. *)
Lemma handleViewChange_eq viewport cells w :
  handleViewChange props viewport cells w =
  (tt,
   if ResizeStrategy_eqb (resizeStrategy' props) full
      || negb (resizeOnScroll' props)
      || negb (start_moved viewport cells)
   then set_viewportState cells w
   else match gridRef w with
        | Some _ =>
            if isMounted w
            then set_debounceResizer
                   (Debounce.call (clock w) (origin cells) (debounceResizer w))
                   (set_viewportState cells w)
            else set_viewportState cells w
        | None => set_viewportState cells w
        end).
Proof.
  unfold handleViewChange, start_moved, setViewport, callDebounceResizer,
    bind, ret, gets, modify, origin.
  rewrite negb_involutive.
  destruct (_ || _ || _); [reflexivity|].
  destruct w as [v m a d [g|] c u]; cbn; [|reflexivity].
  now destruct m.
Qed.

Lemma advance_to_set_viewportState t cells w :
  advance_to t (set_viewportState cells w) =
  set_viewportState cells (advance_to t w).
Proof.
  unfold advance_to, resizerCallback. destruct w as [v m a d [g|] c u]; cbn;
    now destruct (Debounce.due _ d).
Qed.

(** C3: a call of [onViewChange] whose viewport has the cached viewport's
    [rowStartIndex] and [columnStartIndex] schedules no re-layout, whatever
    its stop indices: it replaces the cached viewport and nothing else, so
    the resizer's slot and the grid are as before, also at any later
    time. *)
Theorem same_start_schedules_nothing (cells : ViewPortProps) (w : World) :
  rowStartIndex cells = rowStartIndex (viewportState w) ->
  columnStartIndex cells = columnStartIndex (viewportState w) ->
  let w1 := snd (onViewChange props cells w) in
  w1 = set_viewportState cells w
  /\ debounceResizer w1 = debounceResizer w
  /\ gridRef w1 = gridRef w
  /\ (forall t, gridRef (advance_to t w1) = gridRef (advance_to t w)).
Proof.
  intros Hr Hc. cbv zeta. unfold onViewChange.
  rewrite handleViewChange_eq. unfold start_moved.
  rewrite Hr, Hc, !Z.eqb_refl. cbn [andb negb snd].
  rewrite orb_true_r.
  repeat split. intros t. now rewrite advance_to_set_viewportState.
Qed.

(** C6: every call of the handler replaces the cached viewport by the new
    one, whatever the strategy, [resizeOnScroll], the start indices, the
    mounted flag and the grid reference are; the rest of the handler runs on
    the state that already holds the new viewport, and the next
    [columnWidth] reads it. *)
Theorem viewport_always_cached (viewport cells : ViewPortProps) (w : World) :
  viewportState (snd (handleViewChange props viewport cells w)) = cells
  /\ viewportState (snd (onViewChange props cells w)) = cells
  /\ handleViewChange props viewport cells w =
     handleViewChange props viewport cells (set_viewportState cells w)
  /\ (forall col,
        columnWidth props col (snd (onViewChange props cells w)) =
        getColumnWidth props cells col (snd (onViewChange props cells w))).
Proof.
  assert (H : forall v,
    viewportState (snd (handleViewChange props v cells w)) = cells).
  { intros v. rewrite handleViewChange_eq. cbn [snd].
    destruct (_ || _ || _); [reflexivity|].
    destruct (gridRef w); [|reflexivity]. now destruct (isMounted w). }
  split; [apply H|]. split; [apply H|]. split.
  - rewrite !handleViewChange_eq. reflexivity.
  - intros col. unfold columnWidth at 1. unfold onViewChange. now rewrite H.
Qed.

Lemma isMounted_advance_to t w : isMounted (advance_to t w) = isMounted w.
Proof.
  unfold advance_to, resizerCallback. destruct w as [v m a d [g|] c u]; cbn;
    now destruct (Debounce.due _ d).
Qed.

Lemma isMounted_step w e :
  isMounted (step props w e) = isMounted w || is_mount (snd e).
Proof.
  unfold step. destruct e as [t [|cells|col|g]]; cbn [fst snd dispatch is_mount].
  - now rewrite orb_true_r.
  - unfold onViewChange. rewrite handleViewChange_eq. cbn [snd].
    rewrite orb_false_r, <- (isMounted_advance_to t w).
    destruct (advance_to t w) as [v m a d [g|] c u];
      destruct (_ || _ || _); try reflexivity.
    now destruct m.
  - unfold bind, columnWidth. rewrite getColumnWidth_eq. cbn [snd ret].
    now rewrite orb_false_r, isMounted_advance_to.
  - cbn. now rewrite orb_false_r, isMounted_advance_to.
Qed.

Lemma mounted_history_true timeline : forall w,
  isMounted w = true ->
  mounted_history props w timeline = repeat true (S (List.length timeline)).
Proof.
  induction timeline as [|e rest IH]; intros w Hm; cbn [mounted_history].
  - now rewrite Hm.
  - rewrite Hm, IH; [reflexivity|]. now rewrite isMounted_step, Hm.
Qed.

Lemma flips_repeat b n : flips (repeat b n) = 0%nat.
Proof.
  induction n as [|n IH]; [reflexivity|].
  destruct n as [|n]; [reflexivity|].
  change (flips (repeat b (S (S n))))
    with ((if Bool.eqb b b then 0 else 1) + flips (repeat b (S n)))%nat.
  now rewrite IH, eqb_reflx.
Qed.

Lemma mounted_history_shape timeline : forall w,
  exists k m, mounted_history props w timeline = repeat false k ++ repeat true m.
Proof.
  induction timeline as [|e rest IH]; intros w.
  - destruct (isMounted w) eqn:E; cbn [mounted_history]; rewrite E.
    + now exists 0%nat, 1%nat.
    + now exists 1%nat, 0%nat.
  - destruct (isMounted w) eqn:E.
    + exists 0%nat, (S (List.length (e :: rest))).
      now apply mounted_history_true.
    + destruct (IH (step props w e)) as (k & m & H).
      exists (S k), m. cbn [mounted_history]. now rewrite E, H.
Qed.

Lemma flips_mounted_history timeline : forall w,
  isMounted w = false ->
  flips (mounted_history props w timeline) =
  if existsb (fun e => is_mount (snd e)) timeline then 1%nat else 0%nat.
Proof.
  induction timeline as [|e rest IH]; intros w Hm; [reflexivity|].
  cbn [mounted_history existsb]. rewrite Hm.
  pose proof (isMounted_step w e) as Hs. rewrite Hm in Hs. cbn [orb] in Hs.
  destruct rest as [|e1 rest1].
  - cbn [mounted_history flips existsb]. rewrite Hs, orb_false_r.
    now destruct (is_mount (snd e)).
  - change (flips (false :: mounted_history props (step props w e) (e1 :: rest1)))
      with ((if Bool.eqb false (isMounted (step props w e)) then 0 else 1)
            + flips (mounted_history props (step props w e) (e1 :: rest1)))%nat.
    destruct (is_mount (snd e)) eqn:Em.
    + rewrite Hs. cbn [Bool.eqb orb].
      rewrite mounted_history_true by now rewrite Hs.
      now rewrite flips_repeat.
    + rewrite Hs. cbn [Bool.eqb orb]. now rewrite IH by now rewrite Hs.
Qed.

End CoordinatorFacts.

Lemma last_cons {A} (l : list A) : forall a d, last (a :: l) d = last l a.
Proof.
  induction l as [|x l IH]; intros a d; [reflexivity|].
  change (last (a :: x :: l) d) with (last (x :: l) d).
  now rewrite (IH x d), (IH x a).
Qed.

Section LifecycleFacts.

Variable props : IProps.

Lemma isMounted_run timeline : forall w,
  isMounted (run props w timeline) =
  isMounted w || existsb (fun e => is_mount (snd e)) timeline.
Proof.
  induction timeline as [|e rest IH]; intros w; cbn [run fold_left existsb].
  - now rewrite orb_false_r.
  - change (fold_left (step props) rest (step props w e))
      with (run props (step props w e) rest).
    now rewrite IH, isMounted_step, orb_assoc.
Qed.

(** C7: the mounted flag only ever goes from unmounted to mounted: along any
    timeline it is false for a while and true from then on, and from the
    first render it changes exactly once if the mount effect runs (and never
    otherwise).  While unmounted, a call of [onViewChange] schedules
    nothing; once mounted, a qualifying change (a start index moved, lazy
    strategy, [resizeOnScroll], grid attached) arms the debounced resizer
    with the new origin. *)
Theorem mounted_lifecycle (w : World) (timeline : list (Z * Event))
  (cells : ViewPortProps) :
  (exists k m,
     mounted_history props w timeline = repeat false k ++ repeat true m)
  /\ (isMounted w = true -> isMounted (run props w timeline) = true)
  /\ (forall host,
        flips (mounted_history props (initial_cells props host) timeline) =
        if existsb (fun e => is_mount (snd e)) timeline then 1%nat else 0%nat)
  /\ (isMounted w = false ->
      snd (onViewChange props cells w) = set_viewportState cells w)
  /\ (isMounted w = true -> qualifies props w cells = true ->
      snd (onViewChange props cells w) =
      set_debounceResizer
        (Debounce.call (clock w) (origin cells) (debounceResizer w))
        (set_viewportState cells w)
      /\ Debounce.pending (debounceResizer (snd (onViewChange props cells w))) =
         Some (origin cells, clock w + Debounce.wait (debounceResizer w))).
Proof.
  split; [apply mounted_history_shape|].
  split; [intros Hm; now rewrite isMounted_run, Hm|].
  split; [intros host; now apply flips_mounted_history|].
  unfold onViewChange. rewrite handleViewChange_eq. cbn [snd]. split.
  - intros Hm. rewrite Hm.
    destruct (_ || _ || _); [reflexivity|]. now destruct (gridRef w).
  - intros Hm Hq. unfold qualifies in Hq.
    apply andb_prop in Hq as [Hq Hg]. apply andb_prop in Hq as [Hq Hs].
    apply andb_prop in Hq as [Hl Hr]. apply ResizeStrategy_eqb_eq in Hl.
    rewrite Hl, Hr, Hs, Hm. cbn.
    destruct (gridRef w); [|discriminate]. now split.
Qed.

End LifecycleFacts.

(** ** Debouncing *)

Section DebounceFacts.

Variable props : IProps.
Hypothesis lazy_strategy : resizeStrategy' props = lazy.
Hypothesis resize_on_scroll : resizeOnScroll' props = true.

(** An armed resizer stays armed, for the new origin, over a viewport
    change that comes before its deadline. *)
Lemma armed_step w g t v t1 v1 :
  armed props w g t v ->
  t <= t1 < t + timeout' props ->
  start_moved v v1 = true ->
  armed props (step props w (t1, EvViewChange v1)) g t1 v1.
Proof.
  intros (Hg & Hm & Hc & Hv & Hd) Ht Hs.
  destruct w as [v0 m a d g0 c u]; cbn in Hg, Hm, Hc, Hv, Hd; subst.
  unfold step; cbn [fst snd dispatch]. unfold onViewChange.
  rewrite handleViewChange_eq. cbn [snd].
  unfold advance_to, Debounce.due; cbn.
  replace (Z.max t1 t) with t1 by lia.
  destruct (Z.leb_spec (t + timeout' props) t1) as [|_]; [lia|].
  cbn. rewrite lazy_strategy, resize_on_scroll, Hs. cbn.
  unfold armed; cbn. repeat split.
Qed.

(** The first accepted change arms an idle resizer. *)
Lemma idle_step w g t1 v1 :
  isMounted w = true ->
  gridRef w = Some g ->
  debounceResizer w = Debounce.make (timeout' props) ->
  clock w <= t1 ->
  start_moved (viewportState w) v1 = true ->
  armed props (step props w (t1, EvViewChange v1)) g t1 v1.
Proof.
  intros Hm Hg Hd Hc Hs.
  destruct w as [v0 m a d g0 c u]; cbn in Hg, Hm, Hc, Hs, Hd; subst.
  unfold step; cbn [fst snd dispatch]. unfold onViewChange.
  rewrite handleViewChange_eq. cbn [snd].
  unfold advance_to, Debounce.due; cbn.
  replace (Z.max t1 c) with t1 by lia.
  rewrite lazy_strategy, resize_on_scroll, Hs. cbn.
  unfold armed; cbn. repeat split.
Qed.

Lemma armed_run rest : forall w g t v,
  armed props w g t v ->
  within_delay (timeout' props) t (map fst rest) = true ->
  start_moves v (map snd rest) = true ->
  armed props (run props w (view_changes rest)) g
        (fst (last rest (t, v))) (snd (last rest (t, v))).
Proof.
  induction rest as [|[t1 v1] rest IH]; intros w g t v Ha Ht Hs.
  - exact Ha.
  - cbn [map fst snd within_delay start_moves] in Ht, Hs.
    apply andb_prop in Ht as [Ht Ht']. apply andb_prop in Ht as [Ht1 Ht2].
    apply andb_prop in Hs as [Hs Hs'].
    apply Z.leb_le in Ht1. apply Z.ltb_lt in Ht2.
    pose proof (armed_step w g t v t1 v1 Ha (conj Ht1 Ht2) Hs) as Ha1.
    specialize (IH _ _ _ _ Ha1 Ht' Hs').
    cbn [view_changes map run fold_left fst snd].
    rewrite last_cons. exact IH.
Qed.

(** What the clock does to an armed resizer. *)
Lemma armed_advance w g t v T :
  armed props w g t v ->
  t <= T ->
  gridRef (advance_to T w) =
  Some {| resetAfterIndices_calls :=
            resetAfterIndices_calls g ++
            (if t + timeout' props <=? T then [origin v] else []) |}
  /\ Debounce.pending (debounceResizer (advance_to T w)) =
     (if t + timeout' props <=? T then None
      else Some (origin v, t + timeout' props)).
Proof.
  intros (Hg & Hm & Hc & Hv & Hd) Ht.
  destruct w as [v0 m a d g0 c u]; cbn in Hg, Hm, Hc, Hv, Hd; subst.
  unfold advance_to, Debounce.due, resizerCallback; cbn.
  replace (Z.max T t) with T by lia.
  destruct (t + timeout' props <=? T); cbn.
  - now split.
  - rewrite app_nil_r. now destruct g.
Qed.

End DebounceFacts.

(** C4: when [onViewChange] is called N >= 1 times with changes that are not
    suppressed (lazy strategy, [resizeOnScroll], mounted, grid attached, a
    start index moved each time), each call less than the delay after the
    one before, the grid's [resetAfterIndices] is called exactly once, with
    the [rowStartIndex] and [columnStartIndex] of the last call, and not
    before the delay has passed since that call: at any time [T] from the
    last call on, the grid has received nothing new if [T] is before the
    last call's time plus the delay, and exactly that one call otherwise,
    with nothing left pending. *)
Theorem debounced_burst_fires_once (props : IProps) (w : World) (g : GridRef)
  (t1 : Z) (v1 : ViewPortProps) (rest : list (Z * ViewPortProps)) (T : Z) :
  resizeStrategy' props = lazy ->
  resizeOnScroll' props = true ->
  isMounted w = true ->
  gridRef w = Some g ->
  debounceResizer w = Debounce.make (timeout' props) ->
  clock w <= t1 ->
  within_delay (timeout' props) t1 (map fst rest) = true ->
  start_moves (viewportState w) (v1 :: map snd rest) = true ->
  let tN := fst (last rest (t1, v1)) in
  let vN := snd (last rest (t1, v1)) in
  tN <= T ->
  let w1 := advance_to T (run props w (view_changes ((t1, v1) :: rest))) in
  gridRef w1 =
  Some {| resetAfterIndices_calls :=
            resetAfterIndices_calls g ++
            (if tN + timeout' props <=? T then [origin vN] else []) |}
  /\ Debounce.pending (debounceResizer w1) =
     (if tN + timeout' props <=? T then None
      else Some (origin vN, tN + timeout' props)).
Proof.
  intros Hl Hr Hm Hg Hd Hc Ht Hs tN vN HT w1.
  cbn [start_moves] in Hs. apply andb_prop in Hs as [Hs1 Hs].
  pose proof (idle_step props Hl Hr w g t1 v1 Hm Hg Hd Hc Hs1) as Ha.
  pose proof (armed_run props Hl Hr rest _ _ _ _ Ha Ht Hs) as Ha'.
  exact (armed_advance props _ _ _ _ T Ha' HT).
Qed.

(** ** The statements above at sample inputs *)

Example columnWidth_names :
  fst (getColumnWidth (default_props names) (view 0 4 0 0) 0 first_render) = 145
  /\ fst (getColumnWidth (default_props names) (view 0 2 0 0) 0 first_render) = 60
  /\ fst (getColumnWidth (default_props names) (view 2 0 0 0) 0 first_render) = 145
  /\ fst (getColumnWidth (default_props names) (view 7 5 0 0) 0 first_render) = 60.
Proof. repeat split; reflexivity. Qed.

Lemma columnWidth_is_floored_maximum_witness :
  (forall row,
     In row (sampledRows (default_props no_values) (viewportState first_render)) ->
     nullish_or_null
       (getValue (default_props no_values)
                 {| rowIndex := row; columnIndex := 7 |}) = JsNull)
  /\ fst (columnWidth (default_props no_values) 7 first_render) = 60.
Proof.
  split; [intros; reflexivity|].
  destruct (columnWidth_is_floored_maximum (default_props no_values) 7
              first_render) as (_ & _ & _ & _ & H).
  apply H. intros; reflexivity.
Defined.

(** C2, as first stated, fails: the bound is not the larger of
    [rowStopIndex] and [initialVisibleRows].  With the default 20 initial
    rows and a viewport that stops at row 5, the lazy bound is 5. *)
Lemma sampling_bound_is_not_max :
  resizeStrategy' (default_props names) <> full
  /\ visibleRows (default_props names) (view 0 5 0 3) = Some 5
  /\ Z.max (rowStopIndex (view 0 5 0 3))
           (initialVisibleRows' (default_props names)) = 20
  /\ ~ (forall (props : IProps) (viewport : ViewPortProps),
          resizeStrategy' props <> full ->
          visibleRows props viewport =
          Some (Z.max (rowStopIndex viewport) (initialVisibleRows' props))).
Proof.
  split; [discriminate|]. split; [reflexivity|]. split; [reflexivity|].
  intros H. specialize (H (default_props names) (view 0 5 0 3)).
  cbv in H. assert (E : Some 5 = Some 20) by (apply H; discriminate).
  discriminate E.
Qed.

Lemma sampling_bound_witness :
  resizeStrategy' (default_props names) <> full
  /\ visibleRows (default_props names) (view 0 5 0 3) = Some 5
  /\ visibleRows (default_props names) (view 0 0 0 3) = Some 20.
Proof.
  split; [discriminate|]. split.
  - apply (sampling_bound (default_props names) (view 0 5 0 3) 0 first_render).
    discriminate.
  - apply (sampling_bound (default_props names) (view 0 0 0 3) 0 first_render).
    discriminate.
Defined.

Lemma sampling_loop_terminates_witness :
  visibleRows (default_props names) (view 3 8 0 0) = Some 8
  /\ remaining (visibleRows (default_props names) (view 3 8 0 0)) 3 = 5%nat
  /\ js_lt (start (fst (iterate (default_props names) 2 0
                         {| start := 3; maxWidth := 60; sampled := [] |}
                         first_render)))
           (Some 8) = true.
Proof.
  destruct (sampling_loop_terminates (default_props names) (view 3 8 0 0) 0
              first_render) as (_ & _ & Hcond & _ & _ & Hn).
  split; [reflexivity|]. split.
  - apply (Hn 8). reflexivity.
  - apply (Hcond 2%nat). cbv. lia.
Defined.

Lemma same_start_schedules_nothing_witness :
  rowStartIndex (view 0 9 0 4) = rowStartIndex (viewportState mounted_sample)
  /\ columnStartIndex (view 0 9 0 4) =
     columnStartIndex (viewportState mounted_sample)
  /\ snd (onViewChange (default_props names) (view 0 9 0 4) mounted_sample) =
     set_viewportState (view 0 9 0 4) mounted_sample.
Proof.
  split; [reflexivity|]. split; [reflexivity|].
  apply (same_start_schedules_nothing (default_props names) (view 0 9 0 4)
           mounted_sample); reflexivity.
Defined.

Lemma debounced_burst_fires_once_witness :
  gridRef
    (advance_to 649
       (run (default_props names) mounted_sample
            (view_changes [(10, view 1 5 0 3); (100, view 2 6 0 3);
                           (350, view 2 6 1 4)]))) =
  Some {| resetAfterIndices_calls := [] |}
  /\ gridRef
       (advance_to 650
          (run (default_props names) mounted_sample
               (view_changes [(10, view 1 5 0 3); (100, view 2 6 0 3);
                              (350, view 2 6 1 4)]))) =
     Some {| resetAfterIndices_calls :=
               [{| rowIndex := 2; columnIndex := 1 |}] |}.
Proof.
  split.
  - apply (debounced_burst_fires_once (default_props names) mounted_sample
             {| resetAfterIndices_calls := [] |} 10 (view 1 5 0 3)
             [(100, view 2 6 0 3); (350, view 2 6 1 4)] 649);
      try reflexivity; cbv; discriminate.
  - apply (debounced_burst_fires_once (default_props names) mounted_sample
             {| resetAfterIndices_calls := [] |} 10 (view 1 5 0 3)
             [(100, view 2 6 0 3); (350, view 2 6 1 4)] 650);
      try reflexivity; cbv; discriminate.
Defined.

Lemma construction_fails_iff_witness :
  resizeStrategy' full_props_without_rowCount = full
  /\ rowCount full_props_without_rowCount = None
  /\ (exists e, useAutoSizer full_props_without_rowCount sample_host = inl e)
  /\ (exists w, useAutoSizer (default_props names) sample_host = inr w).
Proof.
  split; [reflexivity|]. split; [reflexivity|]. split.
  - apply (construction_fails_iff full_props_without_rowCount sample_host).
    split; reflexivity.
  - apply (construction_fails_iff (default_props names) sample_host).
    intros [H _]. discriminate H.
Defined.

Lemma mounted_lifecycle_witness :
  isMounted first_render = false
  /\ snd (onViewChange (default_props names) (view 1 5 0 3) first_render) =
     set_viewportState (view 1 5 0 3) first_render
  /\ isMounted mounted_sample = true
  /\ qualifies (default_props names) mounted_sample (view 1 5 0 3) = true
  /\ Debounce.pending
       (debounceResizer
          (snd (onViewChange (default_props names) (view 1 5 0 3)
                             mounted_sample))) =
     Some ({| rowIndex := 1; columnIndex := 0 |}, 300).
Proof.
  split; [reflexivity|]. split.
  - apply (mounted_lifecycle (default_props names) first_render []
             (view 1 5 0 3)). reflexivity.
  - split; [reflexivity|]. split; [reflexivity|].
    apply (mounted_lifecycle (default_props names) mounted_sample []
             (view 1 5 0 3)); reflexivity.
Defined.

Lemma unmeasured_value_is_skipped_witness :
  AutoSizerCanvas.measureText
    (autoSizer (initial_cells (default_props names) blind_host)) "id" = None
  /\ iteration (default_props names) 0
               {| start := 0; maxWidth := 60; sampled := [] |}
               (initial_cells (default_props names) blind_host) =
     ({| start := 1; maxWidth := 60;
         sampled := [{| rowIndex := 0; columnIndex := 0 |}] |},
      initial_cells (default_props names) blind_host)
  /\ columnWidth (default_props names) 0
                 (initial_cells (default_props names) blind_host) =
     (60, initial_cells (default_props names) blind_host).
Proof.
  destruct (unmeasured_value_is_skipped (default_props names) 0
              (initial_cells (default_props names) blind_host))
    as (Hbody & _ & _ & Hblind).
  split; [reflexivity|]. split.
  - apply (Hbody {| start := 0; maxWidth := 60; sampled := [] |});
      reflexivity.
  - apply Hblind. reflexivity.
Defined.

Lemma columnWidth_deterministic_witness :
  names {| rowIndex := 100; columnIndex := 0 |} <>
  names_but_row_100 {| rowIndex := 100; columnIndex := 0 |}
  /\ fst (columnWidth (default_props names) 0 first_render) =
     fst (columnWidth (default_props names_but_row_100) 0
            (set_viewportState (view 0 0 0 0) mounted_sample))
  /\ snd (columnWidth (default_props names) 0 first_render) = first_render.
Proof.
  split; [discriminate|].
  destruct (columnWidth_deterministic (default_props names)
              (default_props names_but_row_100) 0 first_render
              (set_viewportState (view 0 0 0 0) mounted_sample))
    as (Hfst & Hsnd & _).
  - repeat split.
  - reflexivity.
  - reflexivity.
  - intros row Hin. apply In_rows_from in Hin.
    change (0 <= row < 0 + 20) in Hin.
    unfold names_but_row_100; cbn [getValue default_props rowIndex].
    destruct (Z.eqb_spec row 100) as [E|_]; [lia|reflexivity].
  - split; assumption.
Defined.

(** * Further facts *)

(** ** The estimator over its sample *)

Lemma In_candidateWidths p a col rows x :
  In x (candidateWidths p a col rows) <->
  exists row, In row rows /\ candidateWidth p a col row = Some x.
Proof.
  induction rows as [|r rows IH]; cbn [candidateWidths In].
  - split; [tauto | intros (? & [] & _)].
  - destruct (candidateWidth p a col r) as [y|] eqn:E; cbn [In]; rewrite IH.
    + split.
      * intros [<-|(row & Hin & Hc)]; [exists r | exists row]; tauto.
      * intros (row & [<-|Hin] & Hc); [left; congruence | right; now exists row].
    + split.
      * intros (row & Hin & Hc). exists row; tauto.
      * intros (row & [<-|Hin] & Hc); [congruence | now exists row].
Qed.

Lemma max_of_incl floor l1 l2 :
  (forall x, In x l1 -> In x l2) -> max_of floor l1 <= max_of floor l2.
Proof.
  intros Hincl. destruct (max_of_attained floor l1) as [->|Hin].
  - apply max_of_floor.
  - apply max_of_upper, Hincl, Hin.
Qed.

(** X1: a sample that starts no later and ends no earlier gives a column that
    is no narrower: widening the viewport's row range (or, under the full
    strategy, scrolling back up) never shrinks the estimate. *)
Theorem wider_sample_never_narrower (props : IProps) (v1 v2 : ViewPortProps)
  (col : Z) (w : World) (b1 b2 : Z) :
  visibleRows props v1 = Some b1 ->
  visibleRows props v2 = Some b2 ->
  rowStartIndex v2 <= rowStartIndex v1 ->
  b1 <= b2 ->
  fst (getColumnWidth props v1 col w) <= fst (getColumnWidth props v2 col w).
Proof.
  intros H1 H2 Hs Hb. rewrite !getColumnWidth_eq. cbn [fst].
  apply max_of_incl. intros x. rewrite !In_candidateWidths.
  intros (row & Hin & Hc). exists row. split; [|exact Hc].
  unfold sampledRows in *. rewrite H1 in Hin. rewrite H2.
  apply In_rows_from in Hin. apply In_rows_from. cbn [remaining] in *. lia.
Qed.

(** X2: the column is wide enough for every sampled text: the measured extent
    of the text plus the cell spacing is at most the estimate. *)
Theorem sampled_text_fits (props : IProps) (viewport : ViewPortProps)
  (col row : Z) (w : World) (text : string) (c : CanvasRenderingContext2D) :
  In row (sampledRows props viewport) ->
  getValue props {| rowIndex := row; columnIndex := col |} = JsText text ->
  AutoSizerCanvas.context (autoSizer w) = Some c ->
  (ctx_extent c (ctx_font c) text + inject_Z (cellSpacing' props)
   <= inject_Z (fst (getColumnWidth props viewport col w)))%Q.
Proof.
  intros Hin Hv Hc. rewrite getColumnWidth_eq. cbn [fst].
  set (x := Qceiling (ctx_extent c (ctx_font c) text) + cellSpacing' props).
  assert (Hx : x <= max_of (minColumnWidth' props)
                      (candidateWidths props (autoSizer w) col
                                       (sampledRows props viewport))).
  { apply max_of_upper, In_candidateWidths. exists row. split; [exact Hin|].
    unfold candidateWidth, AutoSizerCanvas.measureText.
    now rewrite Hv, Hc. }
  apply Qle_trans with (inject_Z x).
  - unfold x. rewrite inject_Z_plus.
    apply Qplus_le_compat; [apply Qle_ceiling | apply Qle_refl].
  - now rewrite <- Zle_Qle.
Qed.

(** X3: [undefined] and [null] are interchangeable: two value accessors that
    agree on the sampled rows once undefined is read as null give the same
    estimate. *)
Theorem undefined_counts_as_null (p q : IProps) (col : Z) (w : World) :
  same_configuration p q ->
  (forall row, In row (sampledRows p (viewportState w)) ->
     nullish_or_null (getValue p {| rowIndex := row; columnIndex := col |}) =
     nullish_or_null (getValue q {| rowIndex := row; columnIndex := col |})) ->
  columnWidth p col w = columnWidth q col w.
Proof.
  intros Hcfg Hvals. unfold columnWidth. rewrite !getColumnWidth_eq.
  rewrite <- (same_configuration_sampledRows p q _ Hcfg).
  destruct Hcfg as (_ & Hm & Hc & _).
  unfold minColumnWidth'. rewrite Hm. f_equal. f_equal.
  apply candidateWidths_ext. intros row Hin. specialize (Hvals row Hin).
  unfold candidateWidth, cellSpacing'. rewrite Hc.
  destruct (getValue p _), (getValue q _); cbn in Hvals;
    try reflexivity; try discriminate.
  now injection Hvals as ->.
Qed.

(** X4: on the first render the viewport is all zeros, so the lazy estimator
    samples the first [initialVisibleRows] rows and the full one rows 0 to
    [rowCount], whatever the grid will show. *)
Theorem first_render_sample (props : IProps) (host : Host) (w : World)
  (col : Z) :
  useAutoSizer props host = inr w ->
  let count :=
    match resizeStrategy' props with
    | lazy => initialVisibleRows' props
    | full => with_default 0 (rowCount props)
    end in
  sampledRows props (viewportState w) = rows_from 0 (Z.to_nat count)
  /\ sampled (fst (getColumnWidth_loop props (viewportState w) col w)) =
     map (fun r => {| rowIndex := r; columnIndex := col |})
         (rows_from 0 (Z.to_nat count))
  /\ (forall r, In r (sampledRows props (viewportState w)) <-> 0 <= r < count).
Proof.
  unfold useAutoSizer, invariant, full_without_rowCount.
  intros H. cbv zeta.
  assert (Hrows : sampledRows props (viewportState w) =
    rows_from 0 (Z.to_nat match resizeStrategy' props with
                          | lazy => initialVisibleRows' props
                          | full => with_default 0 (rowCount props)
                          end)).
  { unfold sampledRows, visibleRows.
    destruct (resizeStrategy' props), (rowCount props) as [n|];
      cbn in H; try discriminate; injection H as <-; cbn;
      now rewrite ?Z.sub_0_r. }
  split; [exact Hrows|]. split.
  - now rewrite getColumnWidth_loop_eq, Hrows.
  - intros r. rewrite Hrows, In_rows_from. lia.
Qed.

(** ** The measuring canvas *)

Lemma setFont_setFont f g a :
  AutoSizerCanvas.setFont g (AutoSizerCanvas.setFont f a) =
  AutoSizerCanvas.setFont g a.
Proof.
  unfold AutoSizerCanvas.setFont.
  destruct a as [d [c|]]; cbn; reflexivity.
Qed.

(** X5: the font set last is the one texts are measured in; [setFont()] falls
    back on the canvas's default font; without a 2d context [setFont] does
    nothing and nothing is measured; a new canvas measures in the font it
    was made with. *)
Theorem setFont_last_wins (a : AutoSizerCanvas.t) (f g : option string)
  (text : string) :
  AutoSizerCanvas.setFont g (AutoSizerCanvas.setFont f a) =
  AutoSizerCanvas.setFont g a
  /\ AutoSizerCanvas.measureText (AutoSizerCanvas.setFont f a) text =
     match AutoSizerCanvas.context a with
     | Some c =>
         Some {| width :=
                   ctx_extent c
                     (with_default (AutoSizerCanvas.defaultFont a) f) text |}
     | None => None
     end
  /\ (AutoSizerCanvas.context a = None ->
      AutoSizerCanvas.setFont f a = a
      /\ AutoSizerCanvas.measureText a text = None)
  /\ (forall ctx d,
        AutoSizerCanvas.measureText (AutoSizerCanvas.make ctx d) text =
        match ctx with
        | Some c => Some {| width := ctx_extent c d text |}
        | None => None
        end).
Proof.
  split; [apply setFont_setFont|]. split; [|split].
  - unfold AutoSizerCanvas.measureText, AutoSizerCanvas.setFont.
    destruct a as [d [c|]], f; reflexivity.
  - intros H. unfold AutoSizerCanvas.measureText, AutoSizerCanvas.setFont.
    now rewrite H.
  - intros [c|] d; reflexivity.
Qed.

Section TimelineFacts.

Variable props : IProps.

Lemma advance_to_frame t w :
  viewportState (advance_to t w) = viewportState w
  /\ autoSizer (advance_to t w) = autoSizer w
  /\ Debounce.wait (debounceResizer (advance_to t w)) =
     Debounce.wait (debounceResizer w).
Proof.
  unfold advance_to, resizerCallback. destruct w as [v m a d [g|] c u]; cbn;
    now destruct (Debounce.due _ d).
Qed.

Lemma advance_to_idle t w :
  Debounce.pending (debounceResizer w) = None ->
  advance_to t w = set_clock (Z.max t (clock w)) w.
Proof.
  intros H. unfold advance_to, Debounce.due. now rewrite H.
Qed.

Lemma handleViewChange_frame viewport cells w :
  autoSizer (snd (handleViewChange props viewport cells w)) = autoSizer w
  /\ gridRef (snd (handleViewChange props viewport cells w)) = gridRef w
  /\ uncaught (snd (handleViewChange props viewport cells w)) = uncaught w
  /\ clock (snd (handleViewChange props viewport cells w)) = clock w
  /\ Debounce.wait (debounceResizer
                      (snd (handleViewChange props viewport cells w))) =
     Debounce.wait (debounceResizer w).
Proof.
  rewrite handleViewChange_eq. cbn [snd].
  destruct w as [v m a d [g|] c u]; destruct (_ || _ || _); cbn;
    try (repeat split; fail).
  destruct m; repeat split.
Qed.

Lemma viewportState_step w e :
  viewportState (step props w e) =
  match snd e with
  | EvViewChange cells => cells
  | _ => viewportState w
  end.
Proof.
  destruct (advance_to_frame (fst e) w) as (Hv & _).
  unfold step. destruct e as [t [|cells|col|g]]; cbn [fst snd dispatch] in *.
  - exact Hv.
  - unfold onViewChange. rewrite handleViewChange_eq. cbn [snd].
    destruct (_ || _ || _); [reflexivity|].
    destruct (gridRef _); [|reflexivity]. now destruct (isMounted _).
  - unfold bind, columnWidth. rewrite getColumnWidth_eq. exact Hv.
  - exact Hv.
Qed.

Lemma autoSizer_step w e :
  autoSizer (step props w e) =
  if is_mount (snd e)
  then AutoSizerCanvas.setFont (Some (font' props)) (autoSizer w)
  else autoSizer w.
Proof.
  destruct (advance_to_frame (fst e) w) as (_ & Ha & _).
  unfold step. destruct e as [t [|cells|col|g]];
    cbn [fst snd dispatch is_mount] in *.
  - cbn. now rewrite Ha.
  - unfold onViewChange.
    now destruct (handleViewChange_frame (viewportState (advance_to t w))
                    cells (advance_to t w)) as (-> & _).
  - unfold bind, columnWidth. rewrite getColumnWidth_eq. exact Ha.
  - exact Ha.
Qed.

Lemma viewportState_run timeline : forall w,
  viewportState (run props w timeline) = last_view (viewportState w) timeline.
Proof.
  induction timeline as [|e rest IH]; intros w; [reflexivity|].
  cbn [run last_view fold_left].
  change (fold_left (step props) rest (step props w e))
    with (run props (step props w e) rest).
  rewrite IH, viewportState_step. reflexivity.
Qed.

Lemma autoSizer_run_fixed a timeline : forall w,
  AutoSizerCanvas.setFont (Some (font' props)) a = a ->
  autoSizer w = a ->
  autoSizer (run props w timeline) = a.
Proof.
  induction timeline as [|e rest IH]; intros w Hfix Ha; [exact Ha|].
  cbn [run fold_left]. apply IH; [exact Hfix|].
  rewrite autoSizer_step, Ha. now destruct (is_mount (snd e)).
Qed.

Lemma make_fixed ctx f :
  AutoSizerCanvas.setFont (Some f) (AutoSizerCanvas.make ctx f) =
  AutoSizerCanvas.make ctx f.
Proof. unfold AutoSizerCanvas.make. apply setFont_setFont. Qed.

End TimelineFacts.

(** X6: whatever has happened since the first render, [columnWidth] is the
    estimate for the viewport of the last view change (all zeros if there
    was none), measured on the canvas made at construction: the mounted
    flag, the timers, the grid and the clock do not enter into it. *)
Theorem columnWidth_after_timeline (props : IProps) (host : Host)
  (timeline : list (Z * Event)) (col : Z) :
  let w := run props (initial_cells props host) timeline in
  viewportState w = last_view (view 0 0 0 0) timeline
  /\ autoSizer w = AutoSizerCanvas.make (host_context host) (font' props)
  /\ fst (columnWidth props col w) =
     fst (getColumnWidth props (last_view (view 0 0 0 0) timeline) col
                         (initial_cells props host)).
Proof.
  cbv zeta.
  assert (Hv : viewportState (run props (initial_cells props host) timeline) =
               last_view (view 0 0 0 0) timeline)
    by now rewrite viewportState_run.
  assert (Ha : autoSizer (run props (initial_cells props host) timeline) =
               AutoSizerCanvas.make (host_context host) (font' props))
    by (apply autoSizer_run_fixed; [apply make_fixed | reflexivity]).
  split; [exact Hv|]. split; [exact Ha|].
  unfold columnWidth. rewrite !getColumnWidth_eq, Hv, Ha. reflexivity.
Qed.

(** X7: a change of the font prop takes effect through the font effect: after
    it, texts are measured in the new font on the host's surface, as by a
    hook constructed with the new font; the effect touches nothing but the
    canvas. *)
Theorem font_change_takes_effect (p q : IProps) (host : Host)
  (timeline : list (Z * Event)) (text : string) :
  let w := run p (initial_cells p host) timeline in
  let w1 := snd (fontEffect q w) in
  AutoSizerCanvas.measureText (autoSizer w) text =
  match host_context host with
  | Some c => Some {| width := ctx_extent c (font' p) text |}
  | None => None
  end
  /\ AutoSizerCanvas.measureText (autoSizer w1) text =
     match host_context host with
     | Some c => Some {| width := ctx_extent c (font' q) text |}
     | None => None
     end
  /\ AutoSizerCanvas.measureText (autoSizer w1) text =
     AutoSizerCanvas.measureText (autoSizer (initial_cells q host)) text
  /\ w1 = set_autoSizer (autoSizer w1) w.
Proof.
  cbv zeta.
  rewrite (autoSizer_run_fixed p _ timeline (initial_cells p host)
             (make_fixed _ _) eq_refl).
  unfold fontEffect, modify. cbn [snd autoSizer set_autoSizer initial_cells].
  rewrite (autoSizer_run_fixed p _ timeline (initial_cells p host)
             (make_fixed _ _) eq_refl).
  destruct (host_context host) as [c|]; repeat split.
Qed.

(** X8: a canvas without a 2d context stays without one: from then on, whatever
    happens, every [columnWidth] is [minColumnWidth]. *)
Theorem blind_canvas_stays_blind (props : IProps) (w : World)
  (timeline : list (Z * Event)) (col : Z) :
  AutoSizerCanvas.context (autoSizer w) = None ->
  AutoSizerCanvas.context (autoSizer (run props w timeline)) = None
  /\ fst (columnWidth props col (run props w timeline)) = minColumnWidth' props.
Proof.
  intros Hctx.
  assert (Ha : autoSizer (run props w timeline) = autoSizer w).
  { apply autoSizer_run_fixed; [|reflexivity].
    unfold AutoSizerCanvas.setFont. now rewrite Hctx. }
  split; [now rewrite Ha|].
  unfold columnWidth. rewrite getColumnWidth_eq, Ha. cbn [fst].
  rewrite candidateWidths_none; [reflexivity|].
  intros row _. unfold candidateWidth, AutoSizerCanvas.measureText.
  rewrite Hctx. now destruct (getValue props _).
Qed.

(** ** Timelines on which nothing is scheduled *)

Section QuietFacts.

Variable props : IProps.

(** A step that is not an accepted view change leaves an empty slot
    empty, raises nothing, and leaves the grid to the host. *)
Lemma step_not_accepted w t ev :
  Debounce.pending (debounceResizer w) = None ->
  accepts props w ev = false ->
  Debounce.pending (debounceResizer (step props w (t, ev))) = None
  /\ uncaught (step props w (t, ev)) = uncaught w
  /\ gridRef (step props w (t, ev)) =
     match ev with EvGridRef g => g | _ => gridRef w end.
Proof.
  intros Hp Ha. unfold step. cbn [fst snd]. rewrite (advance_to_idle _ _ Hp).
  destruct w as [v m a [wt pd] g c u]; cbn in Hp; subst pd.
  destruct ev as [|cells|col|g1]; cbn [dispatch].
  - cbn. repeat split.
  - unfold onViewChange. rewrite handleViewChange_eq.
    unfold accepts, qualifies in Ha. cbn in Ha |- *.
    destruct (resizeStrategy' props), (resizeOnScroll' props),
      (start_moved v cells), g, m; cbn in Ha |- *;
      try discriminate; repeat split.
  - unfold bind, columnWidth. rewrite getColumnWidth_eq. cbn. repeat split.
  - cbn. repeat split.
Qed.

(** Over a timeline none of whose events is accepted, given an invariant
    [I] that tells so. *)
Lemma run_not_accepted (I : World -> Prop) (ok : Event -> bool) :
  (forall w ev, I w -> ok ev = true -> accepts props w ev = false) ->
  (forall w t ev, I w -> ok ev = true -> I (step props w (t, ev))) ->
  forall timeline w,
    I w ->
    forallb (fun e => ok (snd e)) timeline = true ->
    Debounce.pending (debounceResizer w) = None ->
    Debounce.pending (debounceResizer (run props w timeline)) = None
    /\ uncaught (run props w timeline) = uncaught w
    /\ gridRef (run props w timeline) = last_gridRef (gridRef w) timeline.
Proof.
  intros Hacc Hinv. induction timeline as [|[t ev] rest IH]; intros w HI Hok Hp.
  - repeat split. exact Hp.
  - cbn [forallb snd] in Hok. apply andb_prop in Hok as [Hev Hok].
    destruct (step_not_accepted w t ev Hp (Hacc w ev HI Hev))
      as (Hp1 & Hu1 & Hg1).
    cbn [run fold_left last_gridRef snd].
    destruct (IH (step props w (t, ev)) (Hinv w t ev HI Hev) Hok Hp1)
      as (Hp2 & Hu2 & Hg2).
    unfold run in Hp2, Hu2, Hg2.
    rewrite Hp2, Hu2, Hu1, Hg2, Hg1. repeat split.
Qed.

End QuietFacts.

(** X9: under the full strategy, or with [resizeOnScroll] off, no timeline of
    events ever arms the resizer: the slot stays empty, no timer task
    fails, and the grid is whatever the host last attached, never reset by
    the hook. *)
Theorem configuration_never_schedules (props : IProps) (w : World)
  (timeline : list (Z * Event)) :
  resizeStrategy' props = full \/ resizeOnScroll' props = false ->
  Debounce.pending (debounceResizer w) = None ->
  Debounce.pending (debounceResizer (run props w timeline)) = None
  /\ uncaught (run props w timeline) = uncaught w
  /\ gridRef (run props w timeline) = last_gridRef (gridRef w) timeline.
Proof.
  intros Hcfg Hp.
  apply (run_not_accepted props (fun _ => True) (fun _ => true)); auto.
  - intros w0 [|cells|col|g] _ _; try reflexivity.
    unfold accepts, qualifies.
    destruct Hcfg as [-> | ->]; cbn; [reflexivity|].
    now rewrite andb_false_r.
  - clear. induction timeline; cbn; auto.
Qed.

(** X10: until the mount effect has run, no timeline of events arms the
    resizer, however the viewport moves. *)
Theorem unmounted_never_schedules (props : IProps) (w : World)
  (timeline : list (Z * Event)) :
  isMounted w = false ->
  never_mounts timeline = true ->
  Debounce.pending (debounceResizer w) = None ->
  Debounce.pending (debounceResizer (run props w timeline)) = None
  /\ uncaught (run props w timeline) = uncaught w
  /\ gridRef (run props w timeline) = last_gridRef (gridRef w) timeline
  /\ isMounted (run props w timeline) = false.
Proof.
  intros Hm Hnm Hp.
  destruct (run_not_accepted props (fun w0 => isMounted w0 = false)
              (fun ev => negb (is_mount ev))) with (timeline := timeline)
              (w := w) as (H1 & H2 & H3); auto.
  - intros w0 [|cells|col|g] Hm0 _; try reflexivity.
    unfold accepts. now rewrite Hm0, andb_false_r.
  - intros w0 t ev Hm0 Hev. rewrite isMounted_step, Hm0. cbn [snd orb].
    now destruct (is_mount ev).
  - repeat split; auto. rewrite isMounted_run, Hm. cbn [orb].
    unfold never_mounts in Hnm. clear -Hnm.
    induction timeline as [|e rest IH]; [reflexivity|].
    cbn in Hnm |- *. apply andb_prop in Hnm as [He Hr].
    destruct (is_mount (snd e)); [discriminate|]. now apply IH.
Qed.

(** X11: while the host has attached no grid, no timeline of events arms the
    resizer: viewport changes are cached and otherwise dropped. *)
Theorem detached_never_schedules (props : IProps) (w : World)
  (timeline : list (Z * Event)) :
  gridRef w = None ->
  never_attaches timeline = true ->
  Debounce.pending (debounceResizer w) = None ->
  Debounce.pending (debounceResizer (run props w timeline)) = None
  /\ uncaught (run props w timeline) = uncaught w
  /\ gridRef (run props w timeline) = None
  /\ viewportState (run props w timeline) =
     last_view (viewportState w) timeline.
Proof.
  intros Hg Hna Hp.
  destruct (run_not_accepted props (fun w0 => gridRef w0 = None)
              (fun ev => match ev with
                         | EvGridRef (Some _) => false
                         | _ => true
                         end)) with (timeline := timeline) (w := w)
    as (H1 & H2 & H3); auto.
  - intros w0 [|cells|col|g] Hg0 _; try reflexivity.
    unfold accepts, qualifies. rewrite Hg0. now rewrite andb_false_r.
  - intros w0 t ev Hg0 Hev.
    assert (Hp0 : forall w1, gridRef w1 = None ->
                  gridRef (advance_to t w1) = None).
    { intros w1 E. unfold advance_to, resizerCallback.
      destruct w1 as [v m a d g c u]; cbn in E; subst g; cbn.
      now destruct (Debounce.due _ d). }
    specialize (Hp0 w0 Hg0). unfold step; cbn [fst snd].
    destruct ev as [|cells|col|[g|]]; cbn [dispatch]; try discriminate.
    + cbn. exact Hp0.
    + unfold onViewChange.
      now destruct (handleViewChange_frame props
                      (viewportState (advance_to t w0)) cells
                      (advance_to t w0)) as (_ & -> & _).
    + unfold bind, columnWidth. rewrite getColumnWidth_eq. exact Hp0.
    + reflexivity.
  - repeat split; auto.
    + rewrite H3, Hg. clear -Hna. unfold never_attaches in Hna.
      induction timeline as [|e rest IH]; [reflexivity|].
      cbn in Hna |- *. apply andb_prop in Hna as [He Hr].
      destruct (snd e) as [|cells|col|[g|]]; try discriminate; now apply IH.
    + apply viewportState_run.
Qed.

(** X12: view changes that keep the start indices of the cached viewport, such
    as a window that only grows or shrinks at its far edge, never arm the
    resizer, over any timeline; the cached viewport follows them all the
    same. *)
Theorem far_edge_never_schedules (props : IProps) (w : World)
  (timeline : list (Z * Event)) :
  keeps_start (viewportState w) timeline = true ->
  Debounce.pending (debounceResizer w) = None ->
  Debounce.pending (debounceResizer (run props w timeline)) = None
  /\ uncaught (run props w timeline) = uncaught w
  /\ gridRef (run props w timeline) = last_gridRef (gridRef w) timeline
  /\ viewportState (run props w timeline) =
     last_view (viewportState w) timeline.
Proof.
  intros Hk Hp. set (v := viewportState w) in *.
  destruct (run_not_accepted props
              (fun w0 => forall cells,
                 start_moved (viewportState w0) cells = start_moved v cells)
              (fun ev => match ev with
                         | EvViewChange cells => negb (start_moved v cells)
                         | _ => true
                         end)) with (timeline := timeline) (w := w)
    as (H1 & H2 & H3); auto.
  - intros w0 [|cells|col|g] Hs Hev; try reflexivity.
    unfold accepts, qualifies. rewrite Hs.
    apply negb_true_iff in Hev. rewrite Hev.
    now rewrite !andb_false_r.
  - intros w0 t ev Hs Hev cells0. rewrite viewportState_step. cbn [snd].
    destruct ev as [|cells|col|g]; auto.
    apply negb_true_iff in Hev. unfold start_moved in Hev |- *.
    apply negb_false_iff, andb_prop in Hev as [Hr Hc].
    apply Z.eqb_eq in Hr, Hc. now rewrite Hr, Hc.
  - repeat split; auto. apply viewportState_run.
Qed.

(** ** The debounced callback and the grid *)

Section FiringFacts.

Variable props : IProps.
Hypothesis lazy_strategy : resizeStrategy' props = lazy.
Hypothesis resize_on_scroll : resizeOnScroll' props = true.

(** An accepted change that comes once the armed timer is due: the timer
    fires on the grid first, then the resizer is armed anew. *)
Lemma armed_step_due w g t v t1 v1 :
  armed props w g t v ->
  t <= t1 ->
  t + timeout' props <= t1 ->
  start_moved v v1 = true ->
  armed props (step props w (t1, EvViewChange v1))
        (resetAfterIndices (origin v) g) t1 v1.
Proof.
  intros (Hg & Hm & Hc & Hv & Hd) Ht Hdue Hs.
  destruct w as [v0 m a d g0 c u]; cbn in Hg, Hm, Hc, Hv, Hd; subst.
  unfold step; cbn [fst snd dispatch]. unfold onViewChange.
  rewrite handleViewChange_eq. cbn [snd].
  unfold advance_to, Debounce.due, resizerCallback; cbn.
  replace (Z.max t1 t) with t1 by lia.
  destruct (Z.leb_spec (t + timeout' props) t1) as [_|]; [|lia].
  cbn. rewrite lazy_strategy, resize_on_scroll, Hs. cbn.
  unfold armed; cbn. repeat split.
Qed.

Lemma armed_run_spaced rest : forall w g t v,
  armed props w g t v ->
  spaced (timeout' props) t (map fst rest) = true ->
  start_moves v (map snd rest) = true ->
  armed props (run props w (view_changes rest))
        {| resetAfterIndices_calls :=
             resetAfterIndices_calls g ++
             map origin (removelast (v :: map snd rest)) |}
        (fst (last rest (t, v))) (snd (last rest (t, v))).
Proof.
  induction rest as [|[t1 v1] rest IH]; intros w g t v Ha Ht Hs.
  - cbn. rewrite app_nil_r. now destruct g.
  - cbn [map fst snd spaced start_moves] in Ht, Hs.
    apply andb_prop in Ht as [Ht Ht']. apply andb_prop in Ht as [Ht1 Ht2].
    apply andb_prop in Hs as [Hs Hs'].
    apply Z.leb_le in Ht1, Ht2.
    pose proof (armed_step_due w g t v t1 v1 Ha Ht1 Ht2 Hs) as Ha1.
    specialize (IH _ _ _ _ Ha1 Ht' Hs').
    cbn [view_changes map run fold_left fst snd].
    rewrite last_cons.
    change (removelast (v :: v1 :: map snd rest))
      with (v :: removelast (v1 :: map snd rest)).
    cbn [map]. cbn [resetAfterIndices resetAfterIndices_calls] in IH.
    rewrite <- app_assoc in IH. exact IH.
Qed.

End FiringFacts.

(** X13: accepted view changes that come at least the delay apart are not
    merged: the grid's [resetAfterIndices] is called once for each, in
    order, with that change's start indices; the last call fires once the
    delay has passed since the last change. *)
Theorem spaced_changes_each_fire (props : IProps) (w : World) (g : GridRef)
  (t1 : Z) (v1 : ViewPortProps) (rest : list (Z * ViewPortProps)) (T : Z) :
  resizeStrategy' props = lazy ->
  resizeOnScroll' props = true ->
  isMounted w = true ->
  gridRef w = Some g ->
  debounceResizer w = Debounce.make (timeout' props) ->
  clock w <= t1 ->
  spaced (timeout' props) t1 (map fst rest) = true ->
  start_moves (viewportState w) (v1 :: map snd rest) = true ->
  let tN := fst (last rest (t1, v1)) in
  let vN := snd (last rest (t1, v1)) in
  tN <= T ->
  gridRef (advance_to T (run props w (view_changes ((t1, v1) :: rest)))) =
  Some {| resetAfterIndices_calls :=
            resetAfterIndices_calls g ++
            map origin (removelast (v1 :: map snd rest)) ++
            (if tN + timeout' props <=? T then [origin vN] else []) |}.
Proof.
  intros Hl Hr Hm Hg Hd Hc Ht Hs tN vN HT.
  cbn [start_moves] in Hs. apply andb_prop in Hs as [Hs1 Hs].
  pose proof (idle_step props Hl Hr w g t1 v1 Hm Hg Hd Hc Hs1) as Ha.
  pose proof (armed_run_spaced props Hl Hr rest _ _ _ _ Ha Ht Hs) as Ha'.
  change (run props w (view_changes ((t1, v1) :: rest)))
    with (run props (step props w (t1, EvViewChange v1)) (view_changes rest)).
  destruct (armed_advance props _ _ _ _ T Ha' HT) as [-> _].
  cbn [resetAfterIndices_calls]. now rewrite <- app_assoc.
Qed.

(** X14: the debounced callback reads [gridRef.current] when it fires, not
    when it was scheduled.  If the host swaps the grid while a call is
    pending, the new grid is the one reset; if the host detaches the grid,
    the callback throws a TypeError in the timer task, no grid is reset,
    and the call is not tried again. *)
Theorem callback_binds_grid_late (props : IProps) (w : World) (g : GridRef)
  (t : Z) (v : ViewPortProps) (t1 T : Z) (g1 : option GridRef) :
  armed props w g t v ->
  t <= t1 < t + timeout' props ->
  t + timeout' props <= T ->
  let w1 := advance_to T (step props w (t1, EvGridRef g1)) in
  Debounce.pending (debounceResizer w1) = None
  /\ match g1 with
     | Some g2 =>
         gridRef w1 = Some (resetAfterIndices (origin v) g2)
         /\ uncaught w1 = uncaught w
     | None =>
         gridRef w1 = None
         /\ uncaught w1 =
            uncaught w ++ [TypeError "gridRef.current is undefined"]
     end
  /\ (forall T1, T <= T1 ->
        gridRef (advance_to T1 w1) = gridRef w1
        /\ uncaught (advance_to T1 w1) = uncaught w1).
Proof.
  intros (Hg & Hm & Hc & Hv & Hd) Ht HT.
  destruct w as [v0 m a d g0 c u]; cbn in Hg, Hm, Hc, Hv, Hd; subst.
  cbv zeta. unfold step; cbn [fst snd dispatch].
  unfold advance_to, Debounce.due, resizerCallback, modify; cbn.
  replace (Z.max t1 t) with t1 by lia.
  destruct (Z.leb_spec (t + timeout' props) t1) as [|_]; [lia|]. cbn.
  replace (Z.max T t1) with T by lia.
  destruct (Z.leb_spec (t + timeout' props) T) as [_|]; [|lia].
  destruct g1 as [g2|]; cbn; repeat split.
Qed.

(** ** The further facts at sample inputs *)

Lemma wider_sample_never_narrower_witness :
  fst (getColumnWidth (default_props names) (view 1 2 0 0) 0 first_render)
  <= fst (getColumnWidth (default_props names) (view 0 4 0 0) 0 first_render).
Proof.
  apply (wider_sample_never_narrower (default_props names) (view 1 2 0 0)
           (view 0 4 0 0) 0 first_render 2 4); try reflexivity; cbn; lia.
Defined.

Lemma sampled_text_fits_witness :
  (ctx_extent monospace "12px Arial" "a much longer cell" + inject_Z 10
   <= inject_Z (fst (getColumnWidth (default_props names) (view 0 4 0 0) 0
                                    first_render)))%Q.
Proof.
  apply (sampled_text_fits (default_props names) (view 0 4 0 0) 0 2
           first_render "a much longer cell"
           {| ctx_font := "12px Arial"; ctx_extent := ctx_extent monospace |}).
  - right; right; left; reflexivity.
  - reflexivity.
  - reflexivity.
Defined.

Lemma undefined_counts_as_null_witness :
  names {| rowIndex := 1; columnIndex := 0 |} <>
  names_undefined {| rowIndex := 1; columnIndex := 0 |}
  /\ columnWidth (default_props names) 0 first_render =
     columnWidth (default_props names_undefined) 0 first_render.
Proof.
  split; [discriminate|].
  apply (undefined_counts_as_null (default_props names)
           (default_props names_undefined) 0 first_render).
  - repeat split.
  - intros row _. unfold names_undefined.
    cbn [getValue default_props rowIndex].
    destruct (Z.eqb_spec row 1) as [->|_]; reflexivity.
Defined.

Lemma first_render_sample_witness :
  sampledRows (default_props names) (viewportState first_render) =
  rows_from 0 20
  /\ sampledRows (full_props names)
                 (viewportState (initial_cells (full_props names) sample_host)) =
     rows_from 0 3.
Proof.
  split.
  - apply (first_render_sample (default_props names) sample_host first_render 0).
    reflexivity.
  - apply (first_render_sample (full_props names) sample_host
             (initial_cells (full_props names) sample_host) 0).
    reflexivity.
Defined.

Lemma setFont_last_wins_witness :
  AutoSizerCanvas.setFont (Some "bold"%string)
                          (AutoSizerCanvas.make None "12px Arial") =
  AutoSizerCanvas.make None "12px Arial"
  /\ AutoSizerCanvas.measureText (AutoSizerCanvas.make None "12px Arial") "id"
     = None.
Proof.
  apply (setFont_last_wins (AutoSizerCanvas.make None "12px Arial")
           (Some "bold"%string) None "id").
  reflexivity.
Defined.

Lemma blind_canvas_stays_blind_witness :
  fst (columnWidth (default_props names) 0
         (run (default_props names)
              (initial_cells (default_props names) blind_host)
              ((0, EvMount) :: scrolling))) = 60.
Proof.
  apply (blind_canvas_stays_blind (default_props names)
           (initial_cells (default_props names) blind_host)
           ((0, EvMount) :: scrolling) 0).
  reflexivity.
Defined.

Lemma configuration_never_schedules_witness :
  Debounce.pending
    (debounceResizer
       (run (full_props names) (initial_cells (full_props names) sample_host)
            ((0, EvMount) :: scrolling))) = None.
Proof.
  apply (configuration_never_schedules (full_props names)
           (initial_cells (full_props names) sample_host)
           ((0, EvMount) :: scrolling)).
  - left; reflexivity.
  - reflexivity.
Defined.

Lemma unmounted_never_schedules_witness :
  Debounce.pending
    (debounceResizer (run (default_props names) first_render scrolling)) = None.
Proof.
  apply (unmounted_never_schedules (default_props names) first_render
           scrolling); reflexivity.
Defined.

Lemma detached_never_schedules_witness :
  Debounce.pending
    (debounceResizer
       (run (default_props names)
            (initial_cells (default_props names) detached_host)
            ((0, EvMount) :: scrolling))) = None.
Proof.
  apply (detached_never_schedules (default_props names)
           (initial_cells (default_props names) detached_host)
           ((0, EvMount) :: scrolling)); reflexivity.
Defined.

Lemma far_edge_never_schedules_witness :
  Debounce.pending
    (debounceResizer (run (default_props names) mounted_sample growing)) = None
  /\ viewportState (run (default_props names) mounted_sample growing) =
     view 0 9 0 7.
Proof.
  destruct (far_edge_never_schedules (default_props names) mounted_sample
              growing) as (H1 & _ & _ & H2); try reflexivity.
  split; [exact H1 | exact H2].
Defined.

Lemma spaced_changes_each_fire_witness :
  gridRef
    (advance_to 610
       (run (default_props names) mounted_sample
            (view_changes [(10, view 1 5 0 3); (310, view 2 6 0 3)]))) =
  Some {| resetAfterIndices_calls :=
            [{| rowIndex := 1; columnIndex := 0 |};
             {| rowIndex := 2; columnIndex := 0 |}] |}.
Proof.
  apply (spaced_changes_each_fire (default_props names) mounted_sample
           {| resetAfterIndices_calls := [] |} 10 (view 1 5 0 3)
           [(310, view 2 6 0 3)] 610);
    try reflexivity; cbv; discriminate.
Defined.

Lemma callback_binds_grid_late_witness :
  armed (default_props names) armed_sample
        {| resetAfterIndices_calls := [] |} 10 (view 1 5 0 3)
  /\ uncaught
       (advance_to 310
          (step (default_props names) armed_sample (100, EvGridRef None))) =
     [TypeError "gridRef.current is undefined"].
Proof.
  assert (Ha : armed (default_props names) armed_sample
                     {| resetAfterIndices_calls := [] |} 10 (view 1 5 0 3))
    by (repeat split).
  split; [exact Ha|].
  destruct (callback_binds_grid_late (default_props names) armed_sample
              {| resetAfterIndices_calls := [] |} 10 (view 1 5 0 3) 100 310
              None Ha) as (_ & (_ & Hu) & _).
  - cbv; split; [discriminate | reflexivity].
  - cbv; discriminate.
  - exact Hu.
Defined.
